(** * Express-Jobly: the route layer for users, companies and jobs

    A shallow embedding of the three Express routers of the repository
    ([models/user.js], which holds the users router, [routes/companies.js]
    and [routes/jobs.js]) and the properties of their request handling:
    guards, schema validation, delegation to the data-access objects and
    the translation of results and raised conditions into responses.

    A handler is an [async function (req, res, next)]; here it is a
    computation in a state-and-exception monad over the persistence state
    and the log of data-access calls, and the [try { ... } catch (err)
    { return next(err) }] shell turns a raised condition into the answer of
    the error responder. *)

From Stdlib Require Import ZArith QArith Ascii String.
From stdpp Require Import gmap strings list fin_maps.

Set Warnings "-register-all".
Local Open Scope Z_scope.

(** ** JavaScript values *)

(** The values that travel through the routes.  A Number is [JNaN], an
    infinity, the negative zero or a finite double, written as the
    rational [JNum q] it is.  Characters of a string are code units below
    256. *)
Inductive JsVal : Type :=
| JUndefined
| JNull
| JBool (b : bool)
| JNum (q : Q)
| JNegZero
| JNaN
| JInfinity (negative : bool)
| JStr (s : string)
| JArr (items : list JsVal)
| JObj (fields : list (string * JsVal)).

(** ToBoolean: what [if (!x)] and [x ? a : b] test. *)
Definition truthy (v : JsVal) : bool :=
  match v with
  | JUndefined | JNull | JNegZero | JNaN => false
  | JBool b => b
  | JNum q => negb (Qeq_bool q 0)
  | JStr s => negb (String.eqb s EmptyString)
  | JInfinity _ | JArr _ | JObj _ => true
  end.

(** The conditions a handler, a guard or a data-access object can raise.
    The first three are the classes of [expressError]; [ReferenceError] and
    [TypeError] are raised by the language itself; [UnexpectedError] is any
    other condition of a collaborator. *)
Inductive JsError : Type :=
| BadRequestError (message : JsVal)
| UnauthorizedError
| NotFoundError (message : string)
| ReferenceError (message : string)
| TypeError (message : string)
| UnexpectedError (message : string).

Inductive Outcome (A : Type) : Type :=
| Returns (a : A)
| Throws (e : JsError).
Arguments Returns {A} a.
Arguments Throws {A} e.

(** A value of [req.query] as the query-string parser builds it: a string,
    an array ([?a=1&a=2]) or a nested object ([?a[b]=1]). *)
Inductive QueryVal : Type :=
| QStr (s : string)
| QArr (items : list QueryVal)
| QObj (fields : list (string * QueryVal)).

Fixpoint ofQuery (q : QueryVal) : JsVal :=
  match q with
  | QStr s => JStr s
  | QArr l => JArr (map ofQuery l)
  | QObj fs => JObj (map (fun kv => (fst kv, ofQuery (snd kv))) fs)
  end.

(** A destructured query property: [undefined] when the key is absent. *)
Definition ofQueryProp (o : option QueryVal) : JsVal :=
  match o with
  | None => JUndefined
  | Some q => ofQuery q
  end.

(** [o] has an own property [k]. *)
Definition hasOwn (k : string) (fs : list (string * QueryVal)) : bool :=
  existsb (fun kv => String.eqb k (fst kv)) fs.

(** ToString of a query property, as [parseInt] applies it to its
    argument; [None] when the conversion raises.  An array is its
    elements, converted from left to right, joined by a comma.  An object
    is converted through its [toString]: the inherited one answers
    ["[object Object]"]; an own property [toString] of a query object is a
    string, an array or an object, never a function, and then neither it
    nor [valueOf] yields a primitive, which raises.  [undefined] is
    ["undefined"]. *)
Fixpoint queryToString (q : QueryVal) : option string :=
  match q with
  | QStr s => Some s
  | QArr l =>
      let fix each (l : list QueryVal) : option (list string) :=
        match l with
        | [] => Some []
        | x :: rest =>
            match queryToString x, each rest with
            | Some s, Some ss => Some (s :: ss)
            | _, _ => None
            end
        end in
      option_map (String.concat ",") (each l)
  | QObj fs => if hasOwn "toString" fs then None else Some "[object Object]"
  end.

Definition propToString (o : option QueryVal) : option string :=
  match o with
  | None => Some "undefined"
  | Some q => queryToString q
  end.

(** The TypeError of a conversion that yields no primitive. *)
Definition cannotConvert : JsError :=
  TypeError "Cannot convert object to primitive value".

(** ToBoolean of a query property. *)
Definition propTruthy (o : option QueryVal) : bool :=
  match o with
  | None => false
  | Some (QStr s) => negb (String.eqb s EmptyString)
  | Some (QArr _) | Some (QObj _) => true
  end.

(** [x === "true"] for a query property. *)
Definition propIsTrue (o : option QueryVal) : bool :=
  match o with
  | Some (QStr s) => String.eqb s "true"
  | _ => false
  end.

(** ** parseInt with no radix argument *)

Definition isStrWhiteSpaceChar (c : ascii) : bool :=
  let n := nat_of_ascii c in
  (9 <=? n)%nat && (n <=? 13)%nat || (n =? 32)%nat || (n =? 160)%nat.

Fixpoint trimStart (s : string) : string :=
  match s with
  | String c rest => if isStrWhiteSpaceChar c then trimStart rest else s
  | EmptyString => s
  end.

(** The value of a digit character in radixes up to 36. *)
Definition digitVal (c : ascii) : option Z :=
  let n := Z.of_nat (nat_of_ascii c) in
  if (48 <=? n) && (n <=? 57) then Some (n - 48)
  else if (97 <=? n) && (n <=? 122) then Some (n - 87)
  else if (65 <=? n) && (n <=? 90) then Some (n - 55)
  else None.

(** The longest prefix of [s] made of radix-[R] digits, as digit values. *)
Fixpoint radixDigits (R : Z) (s : string) : list Z :=
  match s with
  | String c rest =>
      match digitVal c with
      | Some d => if d <? R then d :: radixDigits R rest else []
      | None => []
      end
  | EmptyString => []
  end.

Definition mathInt (R : Z) (ds : list Z) : Z :=
  fold_left (fun acc d => acc * R + d) ds 0.

(** An optional sign: the sign and what follows it. *)
Definition stripSign (s : string) : Z * string :=
  match s with
  | String c rest =>
      if Ascii.eqb c "-" then (-1, rest)
      else if Ascii.eqb c "+" then (1, rest)
      else (1, s)
  | EmptyString => (1, s)
  end.

(** With no radix given, a leading [0x] or [0X] selects radix 16 and is
    removed; otherwise the radix is 10. *)
Definition stripPrefix (s : string) : Z * string :=
  match s with
  | String c (String x rest) =>
      if Ascii.eqb c "0" && (Ascii.eqb x "x" || Ascii.eqb x "X")
      then (16, rest) else (10, s)
  | _ => (10, s)
  end.

(** The double nearest to a positive integer [n], ties to the even
    significand: [n] itself while it has at most 53 bits, otherwise its 53
    leading bits, rounded on the bits dropped. *)
Definition roundToDouble (n : Z) : Z :=
  let e := Z.log2 n - 52 in
  if e <=? 0 then n
  else
    let q := n / 2 ^ e in
    let r := n mod 2 ^ e in
    let half := 2 ^ (e - 1) in
    let up := (half <? r) || ((r =? half) && Z.odd q) in
    (if up then q + 1 else q) * 2 ^ e.

(** The Number value of a non-zero integer: the nearest double, an
    infinity from [2 ^ 1024] on. *)
Definition toNumber (n : Z) : JsVal :=
  let r := roundToDouble (Z.abs n) in
  if 2 ^ 1024 <=? r then JInfinity (n <? 0)
  else JNum (inject_Z (Z.sgn n * r)).

Definition parseIntString (inputString : string) : JsVal :=
  let '(sign, S1) := stripSign (trimStart inputString) in
  let '(R, S2) := stripPrefix S1 in
  match radixDigits R S2 with
  | [] => JNaN
  | ds =>
      let m := mathInt R ds in
      if m =? 0 then (if sign =? -1 then JNegZero else JNum 0)
      else toNumber (sign * m)
  end.

(** [parseInt(x)] for a query property [x]: the conversion of [x] to a
    string may raise. *)
Definition parseInt (o : option QueryVal) : Outcome JsVal :=
  match propToString o with
  | Some s => Returns (parseIntString s)
  | None => Throws cannotConvert
  end.

(** ** Requests, responses and raised conditions *)

(** The decoded principal [{ username, isAdmin }] that the authentication
    middleware attaches to the request. *)
Record Principal : Type := { username : string; isAdmin : bool }.

(** [req.user] is [undefined] ([None]) when no principal is attached;
    [req.params] and [req.query] are objects used as maps. *)
Record Request : Type := {
  user : option Principal;
  params : gmap string string;
  body : JsVal;
  query : gmap string QueryVal
}.

(** [req.params.k]. *)
Definition param (req : Request) (k : string) : JsVal :=
  match params req !! k with
  | Some s => JStr s
  | None => JUndefined
  end.

(** What [res.status(s).json(v)] sends; [res.json(v)] leaves the status
    at its default, 200. *)
Record Response : Type := { statusCode : Z; json : JsVal }.

(** The schemas the routers load from [schemas/*.json]. *)
Inductive Schema : Type :=
| userNewSchema | userUpdateSchema
| companyNewSchema | companyUpdateSchema
| jobNewSchema | jobUpdateSchema.

(** The result of [jsonschema.validate]: [valid] is the library's getter,
    true exactly when no error was recorded. *)
Record ValidationError : Type := { stack : string }.
Record ValidatorResult : Type := { errors : list ValidationError }.

Definition valid (r : ValidatorResult) : bool :=
  match errors r with
  | [] => true
  | _ :: _ => false
  end.

(** The operations of the three data-access objects, with their
    arguments as the handlers pass them. *)
Inductive DaoCall : Type :=
| User_register (data : JsVal)
| User_findAll
| User_get (username : JsVal)
| User_update (username data : JsVal)
| User_remove (username : JsVal)
| Company_create (data : JsVal)
| Company_findAll (filters : JsVal)
| Company_get (handle : JsVal)
| Company_update (handle data : JsVal)
| Company_remove (handle : JsVal)
| Job_create (data : JsVal)
| Job_findAll (filters : JsVal)
| Job_get (id : JsVal)
| Job_update (id data : JsVal)
| Job_remove (id : JsVal).

(** The state a request runs against: the persistence state and the log
    of the data-access calls made so far, in order. *)
Record World (DB : Type) : Type := { db : DB; calls : list DaoCall }.
Arguments db {DB} w.
Arguments calls {DB} w.

(** ** The handler monad *)

Definition Async (DB A : Type) : Type := World DB -> Outcome A * World DB.

Definition ret {DB A} (a : A) : Async DB A := fun w => (Returns a, w).

Definition throw {DB A} (e : JsError) : Async DB A := fun w => (Throws e, w).

(** An expression of the handler that may raise. *)
Definition evaluate {DB A} (o : Outcome A) : Async DB A := fun w => (o, w).

Definition bind {DB A B} (m : Async DB A) (k : A -> Async DB B) : Async DB B :=
  fun w =>
    match m w with
    | (Returns a, w') => k a w'
    | (Throws e, w') => (Throws e, w')
    end.

Declare Scope async_scope.
Delimit Scope async_scope with async.
Notation "'let*' x := m 'in' k" := (bind m (fun x => k))
  (at level 10, x name, m at level 100, k at level 200) : async_scope.
Notation "'do' m 'in' k" := (bind m (fun _ => k))
  (at level 10, m at level 100, k at level 200) : async_scope.

(** [s === v] for a string [s]. *)
Definition strictEqStr (s : string) (v : JsVal) : bool :=
  match v with
  | JStr t => String.eqb s t
  | _ => false
  end.

(** The inline ownership test of the users router,
    [req.user.username !== username && !req.user.isAdmin], on the
    principal [p] that [req.user] holds. *)
Definition neitherSelfNorAdmin (p : Principal) (key : JsVal) : bool :=
  negb (strictEqStr (username p) key) && negb (isAdmin p).

(** ** Guards and the error responder *)

(** Modelled from the spec: [middleware/auth.js] is not among the sources.
    The authenticated-guard fails with an Unauthorized condition if no
    principal is attached to the request. *)
Definition ensureLoggedIn (req : Request) : Outcome unit :=
  match user req with
  | Some _ => Returns tt
  | None => Throws UnauthorizedError
  end.

(** Modelled from the spec: [middleware/auth.js] is not among the sources.
    The administrator-guard fails with an Unauthorized condition if the
    attached principal's privilege flag is not set, regardless of
    authentication state. *)
Definition ensureAdmin (req : Request) : Outcome unit :=
  match user req with
  | Some p => if isAdmin p then Returns tt else Throws UnauthorizedError
  | None => Throws UnauthorizedError
  end.

(** Modelled from the spec: [expressError.js] is not among the sources.
    BadRequest is a 400, Unauthorized a 401, NotFound a 404 and anything
    else a 500. *)
Definition errorStatus (e : JsError) : Z :=
  match e with
  | BadRequestError _ => 400
  | UnauthorizedError => 401
  | NotFoundError _ => 404
  | ReferenceError _ | TypeError _ | UnexpectedError _ => 500
  end.

(** The collaborators of the routers: the data-access objects (one
    function for the three of them, from the call to its effect on the
    persistence state and its outcome, a returned value or a raised
    condition), [jsonschema.validate] with the schema files and the token
    helper (both taken to return), the message the Unauthorized class
    carries when it is built with no argument, and the generic message of
    a 500. *)
Class Collaborators (DB : Type) : Type := {
  dao : DaoCall -> DB -> Outcome JsVal * DB;
  validate : JsVal -> Schema -> ValidatorResult;
  createToken : JsVal -> string;
  unauthorizedMessage : string;
  genericMessage : string
}.

Section Routes.

Context {DB : Type} `{Collaborators DB}.

(** [await Model.op(args)]: the call is logged, the collaborator runs. *)
Definition await (c : DaoCall) : Async DB JsVal :=
  fun w =>
    let '(r, d) := dao c (db w) in
    (r, {| db := d; calls := calls w ++ [c] |}).

(** Modelled from the spec: the error handler of [app.js] is not among
    the sources.  The message of a condition of [expressError] is the one
    it carries; the message of any other condition is suppressed in favour
    of the generic one. *)
Definition errorMessage (e : JsError) : JsVal :=
  match e with
  | BadRequestError m => m
  | UnauthorizedError => JStr unauthorizedMessage
  | NotFoundError m => JStr m
  | ReferenceError _ | TypeError _ | UnexpectedError _ => JStr genericMessage
  end.

(** Modelled from the spec: the error handler of [app.js] is not among
    the sources.  It maps the kind of a condition to a status and emits
    [{ error: { message, status } }]; an unrecognized condition is a 500
    with a generic message. *)
Definition errorResponder (e : JsError) : Response :=
  {| statusCode := errorStatus e;
     json := JObj [("error",
               JObj [("message", errorMessage e);
                     ("status", JNum (inject_Z (errorStatus e)))])] |}.

(** [try { ... } catch (err) { return next(err); }] *)
Definition tryNext (h : Async DB Response) (w : World DB)
  : Response * World DB :=
  match h w with
  | (Returns r, w') => (r, w')
  | (Throws e, w') => (errorResponder e, w')
  end.

(** [router.METHOD(path, ...middleware, handler)]: the guards run in
    order; the first that fails hands its condition to the error
    responder and the handler does not run. *)
Fixpoint route (middleware : list (Request -> Outcome unit))
    (handler : Request -> Async DB Response)
    (req : Request) (w : World DB) : Response * World DB :=
  match middleware with
  | [] => tryNext (handler req) w
  | g :: rest =>
      match g req with
      | Returns _ => route rest handler req w
      | Throws e => (errorResponder e, w)
      end
  end.

(** Reading [req.user.username] or [req.user.isAdmin]: a TypeError when
    [req.user] is undefined. *)
Definition reqUser (req : Request) : Async DB Principal :=
  match user req with
  | Some p => ret p
  | None => throw (TypeError "Cannot read properties of undefined")
  end.

Local Open Scope async_scope.

(** *** Users ([models/user.js]) *)

Definition users_post_handler (req : Request) : Async DB Response :=
  let validator := validate (body req) userNewSchema in
  if negb (valid validator) then
    let errs := map stack (errors validator) in
    throw (BadRequestError (JArr (map JStr errs)))
  else
    let* user' := await (User_register (body req)) in
    let token := createToken user' in
    ret {| statusCode := 201;
           json := JObj [("user", user'); ("token", JStr token)] |}.

Definition users_list_handler (req : Request) : Async DB Response :=
  let* users := await User_findAll in
  ret {| statusCode := 200; json := JObj [("users", users)] |}.

(** [NotFoundError] is not among the names the file imports from
    [expressError], so evaluating [new NotFoundError(...)] raises a
    ReferenceError. *)
Definition users_get_handler (req : Request) : Async DB Response :=
  let username := param req "username" in
  let* user' := await (User_get username) in
  if negb (truthy user') then
    throw (ReferenceError "NotFoundError is not defined")
  else
    let* p := reqUser req in
    if neitherSelfNorAdmin p username then
      throw UnauthorizedError
    else
      ret {| statusCode := 200; json := JObj [("user", user')] |}.

Definition users_patch_handler (req : Request) : Async DB Response :=
  let username := param req "username" in
  let validator := validate (body req) userUpdateSchema in
  if negb (valid validator) then
    let errs := map stack (errors validator) in
    throw (BadRequestError (JArr (map JStr errs)))
  else
    let* p := reqUser req in
    if neitherSelfNorAdmin p username then
      throw UnauthorizedError
    else
      let* user' := await (User_update username (body req)) in
      ret {| statusCode := 200; json := JObj [("user", user')] |}.

Definition users_delete_handler (req : Request) : Async DB Response :=
  let username := param req "username" in
  let* p := reqUser req in
  if neitherSelfNorAdmin p username then
    throw UnauthorizedError
  else
    do await (User_remove username) in
    ret {| statusCode := 200; json := JObj [("deleted", username)] |}.

Definition users_post := route [ensureAdmin] users_post_handler.
Definition users_list := route [ensureAdmin] users_list_handler.
Definition users_get := route [ensureLoggedIn] users_get_handler.
Definition users_patch := route [ensureLoggedIn] users_patch_handler.
Definition users_delete := route [ensureLoggedIn] users_delete_handler.

(** *** Companies ([routes/companies.js]) *)

Definition companies_post_handler (req : Request) : Async DB Response :=
  let validator := validate (body req) companyNewSchema in
  if negb (valid validator) then
    let errors := map stack (errors validator) in
    throw (BadRequestError (JStr (String.concat ", " errors)))
  else
    let* company := await (Company_create (body req)) in
    ret {| statusCode := 201; json := JObj [("company", company)] |}.

Definition companies_list_handler (req : Request) : Async DB Response :=
  let name := query req !! "name" in
  let minEmployees := query req !! "minEmployees" in
  let maxEmployees := query req !! "maxEmployees" in
  let* parsedMin := evaluate (parseInt minEmployees) in
  let* parsedMax := evaluate (parseInt maxEmployees) in
  let filters :=
    JObj [("name", ofQueryProp name);
          ("minEmployees", parsedMin);
          ("maxEmployees", parsedMax)] in
  let* companies := await (Company_findAll filters) in
  ret {| statusCode := 200; json := JObj [("companies", companies)] |}.

Definition companies_get_handler (req : Request) : Async DB Response :=
  let* company := await (Company_get (param req "handle")) in
  if negb (truthy company) then
    match params req !! "handle" with
    | Some h => throw (NotFoundError ("No company found with handle: " +:+ h))
    | None => throw (NotFoundError "No company found with handle: undefined")
    end
  else
    ret {| statusCode := 200; json := JObj [("company", company)] |}.

Definition companies_patch_handler (req : Request) : Async DB Response :=
  let validator := validate (body req) companyUpdateSchema in
  if negb (valid validator) then
    let errors := map stack (errors validator) in
    throw (BadRequestError (JStr (String.concat ", " errors)))
  else
    let* company :=
      await (Company_update (param req "handle") (body req)) in
    ret {| statusCode := 200; json := JObj [("company", company)] |}.

Definition companies_delete_handler (req : Request) : Async DB Response :=
  do await (Company_remove (param req "handle")) in
  ret {| statusCode := 200;
         json := JObj [("deleted", param req "handle")] |}.

Definition companies_post := route [ensureAdmin] companies_post_handler.
Definition companies_list := route [] companies_list_handler.
Definition companies_get := route [] companies_get_handler.
Definition companies_patch := route [ensureAdmin] companies_patch_handler.
Definition companies_delete := route [ensureAdmin] companies_delete_handler.

(** *** Jobs ([routes/jobs.js]) *)

Definition jobs_post_handler (req : Request) : Async DB Response :=
  let validator := validate (body req) jobNewSchema in
  if negb (valid validator) then
    let errs := map stack (errors validator) in
    throw (BadRequestError (JStr (String.concat ", " errs)))
  else
    let* job := await (Job_create (body req)) in
    ret {| statusCode := 201; json := JObj [("job", job)] |}.

Definition jobs_list_handler (req : Request) : Async DB Response :=
  let title := query req !! "title" in
  let minSalary := query req !! "minSalary" in
  let hasEquity := query req !! "hasEquity" in
  let* parsedSalary :=
    if propTruthy minSalary then evaluate (parseInt minSalary)
    else ret JUndefined in
  let filters :=
    JObj [("title", ofQueryProp title);
          ("minSalary", parsedSalary);
          ("hasEquity", JBool (propIsTrue hasEquity))] in
  let* jobs := await (Job_findAll filters) in
  ret {| statusCode := 200; json := JObj [("jobs", jobs)] |}.

Definition jobs_get_handler (req : Request) : Async DB Response :=
  let* job := await (Job_get (param req "id")) in
  ret {| statusCode := 200; json := JObj [("job", job)] |}.

Definition jobs_patch_handler (req : Request) : Async DB Response :=
  let validator := validate (body req) jobUpdateSchema in
  if negb (valid validator) then
    let errs := map stack (errors validator) in
    throw (BadRequestError (JStr (String.concat ", " errs)))
  else
    let* job := await (Job_update (param req "id") (body req)) in
    ret {| statusCode := 200; json := JObj [("job", job)] |}.

Definition jobs_delete_handler (req : Request) : Async DB Response :=
  do await (Job_remove (param req "id")) in
  ret {| statusCode := 200; json := JObj [("deleted", param req "id")] |}.

Definition jobs_post := route [ensureAdmin] jobs_post_handler.
Definition jobs_list := route [] jobs_list_handler.
Definition jobs_get := route [] jobs_get_handler.
Definition jobs_patch := route [ensureAdmin] jobs_patch_handler.
Definition jobs_delete := route [ensureAdmin] jobs_delete_handler.

End Routes.

(** ** A reference model of the persistence collaborator *)

(** [o.k] for a value [o]: [undefined] when [o] is no object or has no
    such property. *)
Fixpoint lookupField (k : string) (fs : list (string * JsVal)) : JsVal :=
  match fs with
  | [] => JUndefined
  | (k', v) :: rest => if String.eqb k k' then v else lookupField k rest
  end.

Definition field (k : string) (o : JsVal) : JsVal :=
  match o with
  | JObj fs => lookupField k fs
  | _ => JUndefined
  end.

Definition hasField (k : string) (fs : list (string * JsVal)) : bool :=
  existsb (fun kv => String.eqb k (fst kv)) fs.

Definition withoutFields (ks : list string) (fs : list (string * JsVal))
  : list (string * JsVal) :=
  List.filter (fun kv => negb (existsb (String.eqb (fst kv)) ks)) fs.

(** A partial patch: a field of [row] that [data] names takes the value
    [data] gives it, every other field of [row] is left unchanged, and
    the fields [data] adds come last. *)
Definition patchFields (row data : list (string * JsVal))
  : list (string * JsVal) :=
  map (fun kv => if hasField (fst kv) data
                 then (fst kv, lookupField (fst kv) data) else kv) row
  ++ List.filter (fun kv => negb (hasField (fst kv) row)) data.

Definition patchRow (immutable : list string) (row data : JsVal) : JsVal :=
  match row, data with
  | JObj r, JObj d => JObj (patchFields r (withoutFields immutable d))
  | _, _ => row
  end.

(** A numeric id as a path key: a non-empty string of decimal digits. *)
Definition parseKey (key : JsVal) : option Z :=
  match key with
  | JStr s =>
      let ds := radixDigits 10 s in
      if negb (String.eqb s EmptyString) && (length ds =? String.length s)%nat
      then Some (mathInt 10 ds) else None
  | _ => None
  end.

Record MemDb : Type := {
  userRows : gmap string JsVal;
  companyRows : gmap string JsVal;
  jobRows : gmap Z JsVal
}.

Definition rowsOf {K} `{Countable K} (m : gmap K JsVal) : list JsVal :=
  map snd (map_to_list m).

(** An id no stored job has. *)
Definition freshId (jobs : gmap Z JsVal) : Z :=
  1 + fold_right Z.max 0 (map fst (map_to_list jobs)).

Definition jobsOf (h : string) (jobs : gmap Z JsVal) : list JsVal :=
  List.filter (fun row => strictEqStr h (field "companyHandle" row))
    (rowsOf jobs).

Section MemDao.

(** The filter clauses of the two list operations, which the
    specification leaves to the collaborator: [companyMatches filters row]
    and [jobMatches filters row]. *)
Variable companyMatches jobMatches : JsVal -> JsVal -> bool.

(** Modelled from the spec: no file under [src/] defines the User
    data-access object the specification names; [models/user.js], where
    the users router looks for it, holds that router itself, so what the
    router's [User] is bound to as shipped is [selfRequiredUser] below,
    not this.  This is the collaborator as the specification describes
    it: a user is identified by a unique username, immutable once created;
    the credential is never exposed; an update leaves absent fields
    unchanged; a read, an update or a removal of a username that names no
    user raises the not-found condition. *)
Definition memUser (c : DaoCall) (d : MemDb) : Outcome JsVal * MemDb :=
  let put u row :=
    {| userRows := <[u := row]> (userRows d);
       companyRows := companyRows d; jobRows := jobRows d |} in
  match c with
  | User_register data =>
      match data, field "username" data with
      | JObj fs, JStr u =>
          match userRows d !! u with
          | Some _ => (Throws (BadRequestError (JStr ("Duplicate username: " +:+ u))), d)
          | None =>
              let row := JObj (withoutFields ["password"] fs) in
              (Returns row, put u row)
          end
      | _, _ => (Throws (BadRequestError (JStr "username required")), d)
      end
  | User_findAll => (Returns (JArr (rowsOf (userRows d))), d)
  | User_get (JStr u) =>
      match userRows d !! u with
      | Some row => (Returns row, d)
      | None => (Throws (NotFoundError ("No user: " +:+ u)), d)
      end
  | User_update (JStr u) data =>
      match userRows d !! u with
      | Some row =>
          let row' := patchRow ["username"; "password"] row data in
          (Returns row', put u row')
      | None => (Throws (NotFoundError ("No user: " +:+ u)), d)
      end
  | User_remove (JStr u) =>
      match userRows d !! u with
      | Some _ =>
          (Returns JUndefined,
           {| userRows := delete u (userRows d);
              companyRows := companyRows d; jobRows := jobRows d |})
      | None => (Throws (NotFoundError ("No user: " +:+ u)), d)
      end
  | _ => (Throws (NotFoundError "No user"), d)
  end.

(** Modelled from the spec: [models/company.js] is not among the sources.
    A company is identified by a unique handle, immutable once created,
    and owns its jobs: a read includes them, and a removal takes them
    along, so that every job keeps naming an existing company. *)
Definition memCompany (c : DaoCall) (d : MemDb) : Outcome JsVal * MemDb :=
  let put h row :=
    {| userRows := userRows d;
       companyRows := <[h := row]> (companyRows d); jobRows := jobRows d |} in
  match c with
  | Company_create data =>
      match field "handle" data with
      | JStr h =>
          match companyRows d !! h with
          | Some _ => (Throws (BadRequestError (JStr ("Duplicate company: " +:+ h))), d)
          | None => (Returns data, put h data)
          end
      | _ => (Throws (BadRequestError (JStr "handle required")), d)
      end
  | Company_findAll filters =>
      (Returns (JArr (List.filter (companyMatches filters)
                        (rowsOf (companyRows d)))), d)
  | Company_get (JStr h) =>
      match companyRows d !! h with
      | Some (JObj fs) =>
          (Returns (JObj (fs ++ [("jobs", JArr (jobsOf h (jobRows d)))])), d)
      | _ => (Throws (NotFoundError ("No company: " +:+ h)), d)
      end
  | Company_update (JStr h) data =>
      match companyRows d !! h with
      | Some row =>
          let row' := patchRow ["handle"] row data in
          (Returns row', put h row')
      | None => (Throws (NotFoundError ("No company: " +:+ h)), d)
      end
  | Company_remove (JStr h) =>
      match companyRows d !! h with
      | Some _ =>
          (Returns JUndefined,
           {| userRows := userRows d;
              companyRows := delete h (companyRows d);
              jobRows :=
                filter (fun kv => strictEqStr h (field "companyHandle" (snd kv)) = false)
                  (jobRows d) |})
      | None => (Throws (NotFoundError ("No company: " +:+ h)), d)
      end
  | _ => (Throws (NotFoundError "No company"), d)
  end.

(** Modelled from the spec: [models/job.js] is not among the sources.  A
    job is identified by a numeric id and has a title, a salary, an equity
    fraction and the handle of its company, which must name an existing
    company; a read, an update or a removal of an id that names no job
    raises the not-found condition. *)
Definition memJob (c : DaoCall) (d : MemDb) : Outcome JsVal * MemDb :=
  let put i row :=
    {| userRows := userRows d; companyRows := companyRows d;
       jobRows := <[i := row]> (jobRows d) |} in
  let lookupKey key :=
    match parseKey key with
    | Some i => option_map (pair i) (jobRows d !! i)
    | None => None
    end in
  match c with
  | Job_create data =>
      match field "companyHandle" data with
      | JStr h =>
          match companyRows d !! h with
          | Some _ =>
              let i := freshId (jobRows d) in
              let row :=
                JObj [("id", JNum (inject_Z i));
                      ("title", field "title" data);
                      ("salary", field "salary" data);
                      ("equity", field "equity" data);
                      ("companyHandle", JStr h)] in
              (Returns row, put i row)
          | None => (Throws (BadRequestError (JStr ("No company: " +:+ h))), d)
          end
      | _ => (Throws (BadRequestError (JStr "companyHandle required")), d)
      end
  | Job_findAll filters =>
      (Returns (JArr (List.filter (jobMatches filters) (rowsOf (jobRows d)))), d)
  | Job_get key =>
      match lookupKey key with
      | Some (_, row) => (Returns row, d)
      | None => (Throws (NotFoundError "No job"), d)
      end
  | Job_update key data =>
      match lookupKey key with
      | Some (i, row) =>
          let row' := patchRow ["id"; "companyHandle"] row data in
          (Returns row', put i row')
      | None => (Throws (NotFoundError "No job"), d)
      end
  | Job_remove key =>
      match lookupKey key with
      | Some (i, _) =>
          (Returns JUndefined,
           {| userRows := userRows d; companyRows := companyRows d;
              jobRows := delete i (jobRows d) |})
      | None => (Throws (NotFoundError "No job"), d)
      end
  | _ => (Throws (NotFoundError "No job"), d)
  end.

Definition memDao (c : DaoCall) (d : MemDb) : Outcome JsVal * MemDb :=
  match c with
  | User_register _ | User_findAll | User_get _ | User_update _ _
  | User_remove _ => memUser c d
  | Company_create _ | Company_findAll _ | Company_get _
  | Company_update _ _ | Company_remove _ => memCompany c d
  | Job_create _ | Job_findAll _ | Job_get _ | Job_update _ _
  | Job_remove _ => memJob c d
  end.

End MemDao.

(** ** The users router as shipped *)

Definition isUserCall (c : DaoCall) : bool :=
  match c with
  | User_register _ | User_findAll | User_get _ | User_update _ _
  | User_remove _ => true
  | _ => false
  end.

Definition userMethod (c : DaoCall) : string :=
  match c with
  | User_register _ => "register"
  | User_findAll => "findAll"
  | User_get _ => "get"
  | User_update _ _ => "update"
  | User_remove _ => "remove"
  | _ => EmptyString
  end.

(** [models/user.js], line 8: [const User = require("../models/user")].
    From [models/user.js] the path names the file itself, which is still
    being loaded, so [User] is its unfinished exports object, and stays so
    when line 113 assigns the router to [module.exports].  That object has
    none of [register], [findAll], [get], [update], [remove]: calling one
    raises a TypeError and nothing is read or written. *)
Definition selfRequiredUser {DB : Type} (c : DaoCall) (d : DB)
  : Outcome JsVal * DB :=
  (Throws (TypeError ("User." +:+ userMethod c +:+ " is not a function")), d).

(** The collaborators [E] with [User] bound as the users router binds
    it. *)
Definition shipped {DB : Type} (E : Collaborators DB) : Collaborators DB :=
  {| dao := fun c d =>
              if isUserCall c then selfRequiredUser c d else @dao DB E c d;
     validate := @validate DB E;
     createToken := @createToken DB E;
     unauthorizedMessage := @unauthorizedMessage DB E;
     genericMessage := @genericMessage DB E |}.

(** ** A sample deployment *)

(** Modelled from the spec: the schema files are not among the sources.
    A creation schema requires all mandatory fields, an update schema
    requires none; the body is an object. *)
Definition requiredOf (s : Schema) : list string :=
  match s with
  | userNewSchema => ["username"; "password"; "firstName"; "lastName"; "email"]
  | companyNewSchema => ["handle"; "name"]
  | jobNewSchema => ["title"; "companyHandle"]
  | userUpdateSchema | companyUpdateSchema | jobUpdateSchema => []
  end.

Definition sampleValidate (instance : JsVal) (s : Schema) : ValidatorResult :=
  match instance with
  | JObj fs =>
      {| errors :=
           map (fun k => {| stack := "instance requires property " +:+ k |})
             (List.filter (fun k => negb (hasField k fs)) (requiredOf s)) |}
  | _ => {| errors := [ {| stack := "instance is not of a type(s) object" |} ] |}
  end.

Definition sampleToken (u : JsVal) : string :=
  match field "username" u with
  | JStr s => "token-of-" +:+ s
  | _ => "token"
  end.

(** The routers over the reference persistence model. *)
Definition memApp (companyMatches jobMatches : JsVal -> JsVal -> bool)
    (validator : JsVal -> Schema -> ValidatorResult)
    (tokens : JsVal -> string) (unauthorized generic : string)
  : Collaborators MemDb :=
  {| dao := memDao companyMatches jobMatches;
     validate := validator;
     createToken := tokens;
     unauthorizedMessage := unauthorized;
     genericMessage := generic |}.

Definition sampleApp : Collaborators MemDb :=
  memApp (fun _ _ => true) (fun _ _ => true) sampleValidate sampleToken
    "Unauthorized" "Something went wrong".

#[local] Existing Instance sampleApp.

Definition userU1 : JsVal :=
  JObj [("username", JStr "u1"); ("firstName", JStr "U"); ("lastName", JStr "One");
        ("email", JStr "u1@example.com"); ("isAdmin", JBool false)].

Definition companyIbm : JsVal :=
  JObj [("handle", JStr "ibm"); ("name", JStr "IBM")].

Definition jobAnalyst : JsVal :=
  JObj [("id", JNum (inject_Z 1)); ("title", JStr "Analyst");
        ("salary", JNum (inject_Z 90000)); ("equity", JStr "0");
        ("companyHandle", JStr "ibm")].

(** The company as a read returns it, with its jobs. *)
Definition companyIbmWithJobs : JsVal :=
  JObj [("handle", JStr "ibm"); ("name", JStr "IBM");
        ("jobs", JArr [jobAnalyst])].

Definition sampleDb : MemDb :=
  {| userRows := {[ "u1" := userU1 ]};
     companyRows := {[ "ibm" := companyIbm ]};
     jobRows := {[ 1 := jobAnalyst ]} |}.

Definition sampleWorld : World MemDb := {| db := sampleDb; calls := [] |}.

Definition principalAdmin : Principal := {| username := "root"; isAdmin := true |}.
Definition principalU1 : Principal := {| username := "u1"; isAdmin := false |}.
Definition principalU2 : Principal := {| username := "u2"; isAdmin := false |}.

Definition mkReq (who : option Principal) (ps : list (string * string))
    (b : JsVal) (q : list (string * QueryVal)) : Request :=
  {| user := who; params := list_to_map ps; body := b; query := list_to_map q |}.

(** The body of the round trip of the specification. *)
Definition engineerBody : JsVal :=
  JObj [("title", JStr "Engineer"); ("salary", JNum (inject_Z 100000));
        ("equity", JStr "0.1"); ("companyHandle", JStr "ibm")].

(** The same fields plus the assigned id. *)
Definition engineerJob (i : Z) : JsVal :=
  JObj [("id", JNum (inject_Z i)); ("title", JStr "Engineer");
        ("salary", JNum (inject_Z 100000)); ("equity", JStr "0.1");
        ("companyHandle", JStr "ibm")].

Definition newUserBody (u : string) : JsVal :=
  JObj [("username", JStr u); ("password", JStr "secret"); ("firstName", JStr "N");
        ("lastName", JStr "U"); ("email", JStr "n@example.com")].

(** Sample requests.  [u2] addresses the existing user [u1] or the
    missing user [ghost]; the administrator and [u1] address existing and
    missing keys. *)
Definition keysExisting : list (string * string) :=
  [("username", "u1"); ("handle", "ibm"); ("id", "1")].
Definition keysMissing : list (string * string) :=
  [("username", "ghost"); ("handle", "nope"); ("id", "99")].

Definition reqU1Write : Request :=
  mkReq (Some principalU1) keysExisting (JObj []) [].
Definition reqStrangerBadBody : Request :=
  mkReq (Some principalU2) keysExisting (JArr []) [].
Definition reqStranger : Request :=
  mkReq (Some principalU2) keysExisting (JObj [("firstName", JStr "X")]) [].
Definition reqStrangerMissing : Request :=
  mkReq (Some principalU2) keysMissing (JObj []) [].
Definition reqAdminBadBody : Request :=
  mkReq (Some principalAdmin) keysExisting (JArr []) [].
Definition reqAdminEmptyBody : Request :=
  mkReq (Some principalAdmin) keysExisting (JObj []) [].
Definition reqAdminMissing : Request :=
  mkReq (Some principalAdmin) keysMissing (JObj []) [].
Definition reqU1Missing : Request :=
  mkReq (Some principalU1) keysMissing (JObj []) [].
Definition reqSelf : Request :=
  mkReq (Some principalU1) keysExisting (JObj []) [].
Definition reqAdminDuplicate : Request :=
  mkReq (Some principalAdmin) [] (newUserBody "u1") [].
Definition reqAdminNewUser : Request :=
  mkReq (Some principalAdmin) [] (newUserBody "u3") [].
Definition reqAdminPostJob : Request :=
  mkReq (Some principalAdmin) [] engineerBody [].
Definition reqGetJob2 : Request := mkReq None [("id", "2")] (JObj []) [].
Definition reqListPlain : Request := mkReq None [] (JObj []) [].
Definition reqListFiltered : Request :=
  mkReq None [] (JObj [])
    [("name", QStr "net"); ("minEmployees", QStr "10");
     ("maxEmployees", QStr "500"); ("title", QStr "eng");
     ("minSalary", QStr "100000"); ("hasEquity", QStr "true")].

(** A variant of the reference model whose reads return [undefined] for
    a key that names no row instead of raising, the style the handlers'
    own [if (!row)] tests expect. *)
Definition laxDao (c : DaoCall) (d : MemDb) : Outcome JsVal * MemDb :=
  let r := memDao (fun _ _ => true) (fun _ _ => true) c d in
  match c, r with
  | User_get _, (Throws (NotFoundError _), d')
  | Company_get _, (Throws (NotFoundError _), d')
  | Job_get _, (Throws (NotFoundError _), d') => (Returns JUndefined, d')
  | _, _ => r
  end.

Definition laxApp : Collaborators MemDb :=
  {| dao := laxDao;
     validate := sampleValidate;
     createToken := sampleToken;
     unauthorizedMessage := "Unauthorized";
     genericMessage := "Something went wrong" |}.

Definition newCompanyBody : JsVal :=
  JObj [("handle", JStr "acme"); ("name", JStr "Acme")].

Definition reqAnonymous : Request := mkReq None keysExisting (JObj []) [].
Definition reqAdminNewCompany : Request :=
  mkReq (Some principalAdmin) [] newCompanyBody [].
(** A list request with the query [q]. *)
Definition listReq (q : list (string * QueryVal)) : Request :=
  mkReq None [] (JObj []) q.

Definition reqListGarbage : Request :=
  mkReq None [] (JObj [])
    [("minEmployees", QStr "many"); ("minSalary", QStr EmptyString);
     ("hasEquity", QStr "True")].
Definition reqListOwnToString : Request :=
  mkReq None [] (JObj [])
    [("maxEmployees", QObj [("toString", QStr "x")]);
     ("minSalary", QArr [QStr "5"; QObj [("toString", QStr "x")]]);
     ("hasEquity", QStr "true")].
Definition reqListRepeated : Request :=
  mkReq None [] (JObj [])
    [("minEmployees", QArr [QStr "7"; QStr "9"]);
     ("maxEmployees", QStr " 40 people");
     ("minSalary", QArr [QStr "5"; QStr "6"])].

(** ** Vocabulary of the properties *)

(** The message payload of an error response. *)
Definition errorPayload (r : Response) : JsVal :=
  field "message" (field "error" (json r)).

(** No principal, or a principal whose privilege flag is not set. *)
Definition nonAdmin (req : Request) : Prop :=
  match user req with
  | Some p => isAdmin p = false
  | None => True
  end.

Definition byAdmin (req : Request) : Prop :=
  exists p, user req = Some p /\ isAdmin p = true.

(** A logged-in requester who is neither the user the path names nor an
    administrator. *)
Definition byStranger (req : Request) : Prop :=
  exists p, user req = Some p
    /\ neitherSelfNorAdmin p (param req "username") = true.

(** A logged-in requester who is the user the path names, or an
    administrator. *)
Definition bySelfOrAdmin (req : Request) : Prop :=
  exists p, user req = Some p
    /\ neitherSelfNorAdmin p (param req "username") = false.

(** A non-empty string of decimal digits, and the integer it writes. *)
Definition isDecimalDigit (c : ascii) : bool :=
  let n := Z.of_nat (nat_of_ascii c) in (48 <=? n) && (n <=? 57).

Fixpoint allDecimal (s : string) : bool :=
  match s with
  | EmptyString => true
  | String c rest => isDecimalDigit c && allDecimal rest
  end.

Definition isNumeral (s : string) : bool :=
  negb (String.eqb s EmptyString) && allDecimal s.

Fixpoint numeralValueFrom (acc : Z) (s : string) : Z :=
  match s with
  | EmptyString => acc
  | String c rest => numeralValueFrom (acc * 10 + (Z.of_nat (nat_of_ascii c) - 48)) rest
  end.

Definition numeralValue (s : string) : Z := numeralValueFrom 0 s.

(** Strings of white space, and the first character of a string. *)
Fixpoint allWhiteSpace (s : string) : bool :=
  match s with
  | EmptyString => true
  | String c rest => isStrWhiteSpaceChar c && allWhiteSpace rest
  end.

Definition startsWith (test : ascii -> bool) (s : string) : bool :=
  match s with
  | String c _ => test c
  | EmptyString => false
  end.

Definition isLetterX (c : ascii) : bool := Ascii.eqb c "x" || Ascii.eqb c "X".

Definition isSign (c : ascii) : bool := Ascii.eqb c "-" || Ascii.eqb c "+".

(** A non-empty string of hexadecimal digits, and the integer it writes. *)
Definition isHexDigit (c : ascii) : bool :=
  let n := Z.of_nat (nat_of_ascii c) in
  isDecimalDigit c || (97 <=? n) && (n <=? 102) || (65 <=? n) && (n <=? 70).

Definition hexDigitValue (c : ascii) : Z :=
  let n := Z.of_nat (nat_of_ascii c) in
  if isDecimalDigit c then n - 48
  else if 97 <=? n then n - 97 + 10 else n - 65 + 10.

Fixpoint allHex (s : string) : bool :=
  match s with
  | EmptyString => true
  | String c rest => isHexDigit c && allHex rest
  end.

Definition isHexNumeral (s : string) : bool :=
  negb (String.eqb s EmptyString) && allHex s.

Fixpoint hexValueFrom (acc : Z) (s : string) : Z :=
  match s with
  | EmptyString => acc
  | String c rest => hexValueFrom (acc * 16 + hexDigitValue c) rest
  end.

Definition hexValue (s : string) : Z := hexValueFrom 0 s.

(** [typeof v === "number"]. *)
Definition isNumber (v : JsVal) : bool :=
  match v with
  | JNum _ | JNegZero | JNaN | JInfinity _ => true
  | _ => false
  end.

(** The conversion of a query property to a string does not raise: the
    property is no object with an own [toString], and no array that
    holds one. *)
Definition stringable (o : option QueryVal) : bool :=
  match propToString o with
  | Some _ => true
  | None => false
  end.

(** [v] is the Number value of the integer [n]: the nearest double, and
    [n] itself while [n] is at most [2 ^ 53] in magnitude. *)
Definition isNumberOf (n : Z) (v : JsVal) : Prop :=
  v = toNumber n /\ (Z.abs n <= 2 ^ 53 -> v = JNum (inject_Z n)).

(** The decimal numeral of a non-negative integer, most significant
    digit first; [fuel] bounds the number of digits. *)
Definition digitChar (d : Z) : ascii := ascii_of_nat (Z.to_nat (48 + d)).

Fixpoint renderDigits (fuel : nat) (n : Z) : string :=
  match fuel with
  | O => EmptyString
  | S fuel' =>
      (if n <? 10 then EmptyString else renderDigits fuel' (n / 10))
      +:+ String (digitChar (n mod 10)) EmptyString
  end.

Definition renderId (n : Z) : string := renderDigits (S (Z.to_nat n)) n.

Section Vocabulary.

Context {DB : Type} `{Collaborators DB}.

Definition Route : Type := Request -> World DB -> Response * World DB.

(** The routes behind the administrator-guard that write. *)
Definition adminWriteRoutes : list Route :=
  [users_post; companies_post; companies_patch; companies_delete;
   jobs_post; jobs_patch; jobs_delete].

(** The data-access object signals that a key names no entity by raising
    the not-found condition. *)
Definition raisesNotFound (c : DaoCall) (d : DB) : Prop :=
  exists m d', dao c d = (Throws (NotFoundError m), d').

(** The data-access object returns a value that is no entity ([null],
    [undefined]). *)
Definition returnsNothing (c : DaoCall) (d : DB) : Prop :=
  exists row d', dao c d = (Returns row, d') /\ truthy row = false.

(** The two ways a read can signal that a key names no entity. *)
Definition signalsAbsent (c : DaoCall) (d : DB) : Prop :=
  raisesNotFound c d \/ returnsNothing c d.

(** The data-access object returns the entity [row]. *)
Definition returnsEntity (c : DaoCall) (d : DB) (row : JsVal) : Prop :=
  truthy row = true /\ exists d', dao c d = (Returns row, d').

(** How a route renders the error descriptions of a failed validation:
    the users router hands the list itself to the BadRequest condition,
    the other two join it with a comma and a space. *)
Inductive PayloadShape : Type := AsList | Joined.

Definition payloadOf (shape : PayloadShape) (stacks : list string) : JsVal :=
  match shape with
  | AsList => JArr (map JStr stacks)
  | Joined => JStr (String.concat ", " stacks)
  end.

(** The create and update routes, each with its schema, its guard and the
    shape of its validation payload. *)
Definition validatedRoutes
  : list (Route * Schema * (Request -> Outcome unit) * PayloadShape) :=
  [(users_post, userNewSchema, ensureAdmin, AsList);
   (users_patch, userUpdateSchema, ensureLoggedIn, AsList);
   (companies_post, companyNewSchema, ensureAdmin, Joined);
   (companies_patch, companyUpdateSchema, ensureAdmin, Joined);
   (jobs_post, jobNewSchema, ensureAdmin, Joined);
   (jobs_patch, jobUpdateSchema, ensureAdmin, Joined)].

(** The filters of the last [findAll] of a log. *)
Definition passedFilters (w : World DB) : JsVal :=
  match last (calls w) with
  | Some (Company_findAll f) | Some (Job_findAll f) => f
  | _ => JUndefined
  end.

(** The state after the one data-access call [c] against [w]. *)
Definition afterCall (c : DaoCall) (w : World DB) : World DB :=
  {| db := snd (dao c (db w)); calls := calls w ++ [c] |}.

(** Every route of the three routers, with the data-access call it is
    written to make for a request. *)
Definition routeTable : list (Route * (Request -> DaoCall -> Prop)) :=
  [(users_post, fun req c => c = User_register (body req));
   (users_list, fun _ c => c = User_findAll);
   (users_get, fun req c => c = User_get (param req "username"));
   (users_patch,
     fun req c => c = User_update (param req "username") (body req));
   (users_delete, fun req c => c = User_remove (param req "username"));
   (companies_post, fun req c => c = Company_create (body req));
   (companies_list, fun _ c => exists filters, c = Company_findAll filters);
   (companies_get, fun req c => c = Company_get (param req "handle"));
   (companies_patch,
     fun req c => c = Company_update (param req "handle") (body req));
   (companies_delete, fun req c => c = Company_remove (param req "handle"));
   (jobs_post, fun req c => c = Job_create (body req));
   (jobs_list, fun _ c => exists filters, c = Job_findAll filters);
   (jobs_get, fun req c => c = Job_get (param req "id"));
   (jobs_patch, fun req c => c = Job_update (param req "id") (body req));
   (jobs_delete, fun req c => c = Job_remove (param req "id"))].

End Vocabulary.

(** ** Properties of the guards and of the route shell *)

(** Unfolding a route down to the monad operations. *)
Ltac run_route :=
  unfold users_post, users_list, users_get, users_patch, users_delete,
    companies_post, companies_list, companies_get, companies_patch,
    companies_delete, jobs_post, jobs_list, jobs_get, jobs_patch, jobs_delete.

Ltac run_handler :=
  unfold tryNext, users_post_handler, users_list_handler, users_get_handler,
    users_patch_handler, users_delete_handler, companies_post_handler,
    companies_list_handler, companies_get_handler, companies_patch_handler,
    companies_delete_handler, jobs_post_handler, jobs_list_handler,
    jobs_get_handler, jobs_patch_handler, jobs_delete_handler,
    bind, await, evaluate, reqUser, throw, ret.

Section Properties.

Context {DB : Type} `{Collaborators DB}.

Lemma ensureAdmin_nonAdmin (req : Request) :
  nonAdmin req -> ensureAdmin req = Throws UnauthorizedError.
Proof.
  unfold nonAdmin, ensureAdmin. destruct (user req) as [p|]; [|reflexivity].
  intros ->. reflexivity.
Qed.

Lemma ensureAdmin_byAdmin (req : Request) :
  byAdmin req -> ensureAdmin req = Returns tt.
Proof.
  intros (p & Hu & Ha). unfold ensureAdmin. rewrite Hu, Ha. reflexivity.
Qed.

Lemma ensureLoggedIn_user (req : Request) (p : Principal) :
  user req = Some p -> ensureLoggedIn req = Returns tt.
Proof. unfold ensureLoggedIn. intros ->. reflexivity. Qed.

Lemma route_rejected g rest handler (req : Request) (w : World DB) e :
  g req = Throws e ->
  route (g :: rest) handler req w = (errorResponder e, w).
Proof. simpl. intros ->. reflexivity. Qed.

Lemma route_passed g rest handler (req : Request) (w : World DB) :
  g req = Returns tt ->
  route (g :: rest) handler req w = route rest handler req w.
Proof. simpl. intros ->. reflexivity. Qed.

Lemma admin_route_rejected handler (req : Request) (w : World DB) :
  nonAdmin req ->
  route [ensureAdmin] handler req w = (errorResponder UnauthorizedError, w).
Proof. intros Hn. apply route_rejected, ensureAdmin_nonAdmin, Hn. Qed.

(** C1: a request by a non-admin (no principal, or a principal whose
    privilege flag is not set) to POST /users, POST/PATCH/DELETE /companies
    or POST/PATCH/DELETE /jobs is answered 401, and the state is the one
    before the request: the persistence state is unchanged and no
    data-access operation was logged. *)
Theorem non_admin_write_rejected (req : Request) (w : World DB) :
  nonAdmin req ->
  Forall (fun r : Route =>
            statusCode (fst (r req w)) = 401 /\ snd (r req w) = w)
    adminWriteRoutes.
Proof.
  intros Hn. unfold adminWriteRoutes.
  repeat constructor;
    unfold users_post, companies_post, companies_patch, companies_delete,
      jobs_post, jobs_patch, jobs_delete;
    rewrite (admin_route_rejected _ _ _ Hn); reflexivity.
Qed.

Lemma loggedIn_route handler (req : Request) (w : World DB) p :
  user req = Some p ->
  route [ensureLoggedIn] handler req w = tryNext (handler req) w.
Proof.
  intros Hu. rewrite (route_passed _ _ _ _ _ (ensureLoggedIn_user _ _ Hu)).
  reflexivity.
Qed.

Lemma admin_route handler (req : Request) (w : World DB) :
  byAdmin req ->
  route [ensureAdmin] handler req w = tryNext (handler req) w.
Proof.
  intros Ha. rewrite (route_passed _ _ _ _ _ (ensureAdmin_byAdmin _ Ha)).
  reflexivity.
Qed.

(** C6: for a logged-in requester who is neither the user the path names
    nor an administrator, PATCH /users/:username answers 400 when the body
    fails the update schema and 401 only when it passes (the body is
    validated before ownership is checked), and DELETE /users/:username
    answers 401; either way the state is the one before the request, so
    [User.remove] was never invoked. *)
Theorem users_patch_validates_first_delete_checks_first
    (req : Request) (w : World DB) :
  byStranger req ->
  statusCode (fst (users_patch req w))
    = (if valid (validate (body req) userUpdateSchema) then 401 else 400)
  /\ snd (users_patch req w) = w
  /\ statusCode (fst (users_delete req w)) = 401
  /\ snd (users_delete req w) = w.
Proof.
  intros (p & Hu & Hs). run_route.
  rewrite !(loggedIn_route _ _ _ _ Hu). run_handler. rewrite Hu.
  destruct (valid (validate (body req) userUpdateSchema)); simpl;
    rewrite Hs; simpl; auto.
Qed.

(** GET /companies/:handle answers 404 also when [Company.get] returns
    no company; GET /jobs/:id has no such test and answers 200 with
    whatever [Job.get] returns. *)
Lemma companies_get_falsy_row (req : Request) (w : World DB) :
  returnsNothing (Company_get (param req "handle")) (db w) ->
  statusCode (fst (companies_get req w)) = 404.
Proof.
  intros (row & d' & Hd & Ht). run_route. simpl. run_handler.
  rewrite Hd, Ht. destruct (params req !! "handle"); reflexivity.
Qed.

Lemma jobs_get_falsy_row (req : Request) (w : World DB) :
  returnsNothing (Job_get (param req "id")) (db w) ->
  statusCode (fst (jobs_get req w)) = 200.
Proof.
  intros (row & d' & Hd & Ht). run_route. simpl. run_handler.
  rewrite Hd. reflexivity.
Qed.

Lemma ensureAdmin_cases (req : Request) :
  ensureAdmin req = Returns tt \/ ensureAdmin req = Throws UnauthorizedError.
Proof.
  unfold ensureAdmin. destruct (user req) as [p|]; [destruct (isAdmin p)|]; auto.
Qed.

Lemma ensureLoggedIn_cases (req : Request) :
  (exists p, user req = Some p) \/ ensureLoggedIn req = Throws UnauthorizedError.
Proof. unfold ensureLoggedIn. destruct (user req) as [p|]; eauto. Qed.

(** C2, as amended: for a logged-in requester who is neither the user the
    path names nor an administrator, DELETE /users/:username is answered
    401, PATCH /users/:username is answered 401 when the body passes the
    update schema, and GET /users/:username is answered 401 when
    [User.get] returns the user. *)
Theorem stranger_unauthorized (req : Request) (w : World DB) :
  byStranger req ->
  statusCode (fst (users_delete req w)) = 401
  /\ (valid (validate (body req) userUpdateSchema) = true ->
      statusCode (fst (users_patch req w)) = 401)
  /\ (forall row,
        returnsEntity (User_get (param req "username")) (db w) row ->
        statusCode (fst (users_get req w)) = 401).
Proof.
  intros (p & Hu & Hs). run_route.
  rewrite !(loggedIn_route _ _ _ _ Hu). run_handler. rewrite Hu.
  split; [|split].
  - simpl. rewrite Hs. reflexivity.
  - intros ->. simpl. rewrite Hs. reflexivity.
  - intros row (Ht & d' & Hd). rewrite Hd, Ht. simpl. rewrite Hs. reflexivity.
Qed.

Lemma invalid_has_errors (r : ValidatorResult) :
  valid r = false -> map stack (errors r) <> [].
Proof. unfold valid. destruct (errors r); [discriminate|]. intros _; discriminate. Qed.

(** C4, as amended: for a create or update request that passes the guard
    of its route (the administrator-guard, or the authenticated-guard for
    PATCH /users/:username) and whose body fails the schema of the route,
    the list of error descriptions is non-empty, the answer is 400, its
    message payload is that list for the users routes and its elements
    joined by [", "] for the companies and jobs routes, and the state is
    the one before the request: no data-access operation was invoked. *)
Theorem invalid_body_rejected (req : Request) (w : World DB) :
  Forall (fun '(r, s, g, shape) =>
            g req = Returns tt ->
            valid (validate (body req) s) = false ->
            let stacks := map stack (errors (validate (body req) s)) in
            stacks <> []
            /\ statusCode (fst (r req w)) = 400
            /\ errorPayload (fst (r req w)) = payloadOf shape stacks
            /\ snd (r req w) = w)
    validatedRoutes.
Proof.
  unfold validatedRoutes.
  repeat first [apply Forall_nil_2 | apply Forall_cons_2];
    cbv beta iota zeta; intros Hg Hv;
    (split; [apply invalid_has_errors, Hv|]);
    run_route; rewrite (route_passed _ _ _ _ _ Hg); simpl;
    run_handler; rewrite Hv; simpl; auto.
Qed.

(** C7, as amended: when the path key names no entity (the data-access
    removal raises the not-found condition for it), DELETE
    /companies/:handle, DELETE /jobs/:id and DELETE /users/:username are
    never answered 200, and they are answered 404 when the requester is
    authorized for the route: an administrator, or for the users route a
    logged-in requester who is the user the path names or an
    administrator. *)
Theorem delete_missing_key (req : Request) (w : World DB) :
  (raisesNotFound (Company_remove (param req "handle")) (db w) ->
   statusCode (fst (companies_delete req w)) <> 200
   /\ (byAdmin req -> statusCode (fst (companies_delete req w)) = 404))
  /\ (raisesNotFound (Job_remove (param req "id")) (db w) ->
      statusCode (fst (jobs_delete req w)) <> 200
      /\ (byAdmin req -> statusCode (fst (jobs_delete req w)) = 404))
  /\ (raisesNotFound (User_remove (param req "username")) (db w) ->
      statusCode (fst (users_delete req w)) <> 200
      /\ (bySelfOrAdmin req -> statusCode (fst (users_delete req w)) = 404)).
Proof.
  split; [|split].
  - intros (m & d' & Hd). run_route. split.
    + destruct (ensureAdmin_cases req) as [Hg|Hg].
      * rewrite (route_passed _ _ _ _ _ Hg). simpl. run_handler.
        rewrite Hd. simpl. discriminate.
      * rewrite (route_rejected _ _ _ _ _ _ Hg). simpl. discriminate.
    + intros Ha. rewrite (admin_route _ _ _ Ha). run_handler.
      rewrite Hd. reflexivity.
  - intros (m & d' & Hd). run_route. split.
    + destruct (ensureAdmin_cases req) as [Hg|Hg].
      * rewrite (route_passed _ _ _ _ _ Hg). simpl. run_handler.
        rewrite Hd. simpl. discriminate.
      * rewrite (route_rejected _ _ _ _ _ _ Hg). simpl. discriminate.
    + intros Ha. rewrite (admin_route _ _ _ Ha). run_handler.
      rewrite Hd. reflexivity.
  - intros (m & d' & Hd). run_route. split.
    + destruct (ensureLoggedIn_cases req) as [(p & Hu)|Hg].
      * rewrite (loggedIn_route _ _ _ _ Hu). run_handler. rewrite Hu. simpl.
        destruct (neitherSelfNorAdmin p (param req "username")); simpl.
        -- discriminate.
        -- rewrite Hd. simpl. discriminate.
      * rewrite (route_rejected _ _ _ _ _ _ Hg). simpl. discriminate.
    + intros (p & Hu & Hs). rewrite (loggedIn_route _ _ _ _ Hu).
      run_handler. rewrite Hu. simpl. rewrite Hs. rewrite Hd. reflexivity.
Qed.

End Properties.

(** ** The users routes with [User] as the router binds it *)

Section AsShipped.

Context {DB : Type} (E : Collaborators DB).

Lemma shipped_responder (e : JsError) :
  @errorResponder DB (shipped E) e = @errorResponder DB E e.
Proof. reflexivity. Qed.

Lemma users_get_shipped (req : Request) (w : World DB) p :
  user req = Some p ->
  @users_get DB (shipped E) req w
    = (@errorResponder DB E (TypeError "User.get is not a function"),
       {| db := db w; calls := calls w ++ [User_get (param req "username")] |}).
Proof.
  intros Hu. run_route. rewrite (loggedIn_route _ _ _ _ Hu). reflexivity.
Qed.

(** C3: the claim fails on the users route by a slip of the code.  With
    [User] bound as [models/user.js] binds it, GET /users/:username by a
    logged-in requester, the user the path names and administrators
    included, is answered 500 and nothing is read, whether or not a user
    of that name exists: neither the 200 with the entity nor the 404 of
    the claim. *)
Theorem users_get_is_500_as_shipped (req : Request) (w : World DB) p :
  user req = Some p ->
  statusCode (fst (@users_get DB (shipped E) req w)) = 500
  /\ db (snd (@users_get DB (shipped E) req w)) = db w.
Proof. intros Hu. rewrite (users_get_shipped _ _ _ Hu). split; reflexivity. Qed.

(** C10: the claim fails by the same slip.  With [User] bound as
    [models/user.js] binds it, the call of [User.get] raises before the
    not-found branch and before the ownership test, so two logged-in
    requesters get the same answer, a 500, whatever usernames they address
    and whatever the persistence states hold: the existence of a username
    cannot be observed. *)
Theorem users_get_same_answer_as_shipped
    (req1 req2 : Request) (w1 w2 : World DB) p1 p2 :
  user req1 = Some p1 -> user req2 = Some p2 ->
  fst (@users_get DB (shipped E) req1 w1)
    = fst (@users_get DB (shipped E) req2 w2)
  /\ statusCode (fst (@users_get DB (shipped E) req1 w1)) <> 401
  /\ statusCode (fst (@users_get DB (shipped E) req2 w2)) <> 404.
Proof.
  intros Hu1 Hu2.
  rewrite (users_get_shipped _ _ _ Hu1), (users_get_shipped _ _ _ Hu2).
  repeat split; discriminate.
Qed.

(** C9: the claim fails by the same slip.  With [User] bound as
    [models/user.js] binds it, an admin request POST /users with a body
    that passes the new-user schema is answered 500: [User.register] is
    not a function, no user is created and no token is issued. *)
Theorem users_post_is_500_as_shipped (req : Request) (w : World DB) :
  byAdmin req ->
  valid (@validate DB E (body req) userNewSchema) = true ->
  fst (@users_post DB (shipped E) req w)
    = @errorResponder DB E (TypeError "User.register is not a function")
  /\ statusCode (fst (@users_post DB (shipped E) req w)) = 500
  /\ db (snd (@users_post DB (shipped E) req w)) = db w.
Proof.
  intros Ha Hv. run_route. rewrite (admin_route _ _ _ Ha). run_handler.
  simpl. rewrite Hv. repeat split; reflexivity.
Qed.

End AsShipped.

(** ** What parseInt reads *)

Lemma toNumber_exact (n : Z) :
  Z.abs n <= 2 ^ 53 -> toNumber n = JNum (inject_Z n).
Proof.
  intros Hn.
  assert (Hcase : Z.abs n = 2 ^ 53 \/ Z.abs n < 2 ^ 53) by lia.
  destruct Hcase as [Heq|Hlt].
  - assert (Hn' : n = 2 ^ 53 \/ n = - 2 ^ 53) by lia.
    destruct Hn' as [-> | ->]; reflexivity.
  - unfold toNumber, roundToDouble.
    assert (He : Z.log2 (Z.abs n) - 52 <= 0).
    { destruct (Z.eq_dec (Z.abs n) 0) as [H0|H0].
      - rewrite H0. simpl. lia.
      - assert (Z.log2 (Z.abs n) < 53) by (apply Z.log2_lt_pow2; lia). lia. }
    apply Z.leb_le in He. rewrite He.
    assert (Hbig : (2 ^ 1024 <=? Z.abs n) = false).
    { apply Z.leb_gt. eapply Z.lt_trans; [exact Hlt|]. reflexivity. }
    rewrite Hbig. f_equal. f_equal. lia.
Qed.

Lemma toNumber_isNumberOf (n : Z) : isNumberOf n (toNumber n).
Proof. split; [reflexivity|apply toNumber_exact]. Qed.

Lemma toNumber_isNumber (n : Z) : isNumber (toNumber n) = true.
Proof. unfold toNumber. destruct (2 ^ 1024 <=? _); reflexivity. Qed.

Lemma parseIntString_isNumber (s : string) : isNumber (parseIntString s) = true.
Proof.
  unfold parseIntString.
  destruct (stripSign (trimStart s)) as [sign S1].
  destruct (stripPrefix S1) as [R S2].
  destruct (radixDigits R S2) as [|d ds]; [reflexivity|].
  destruct (mathInt R (d :: ds) =? 0).
  - destruct (sign =? -1); reflexivity.
  - apply toNumber_isNumber.
Qed.

Lemma decimal_digit_facts (c : ascii) :
  isDecimalDigit c = true ->
  isStrWhiteSpaceChar c = false
  /\ Ascii.eqb c "-" = false /\ Ascii.eqb c "+" = false
  /\ Ascii.eqb c "x" = false /\ Ascii.eqb c "X" = false
  /\ digitVal c = Some (Z.of_nat (nat_of_ascii c) - 48)
  /\ (Z.of_nat (nat_of_ascii c) - 48 <? 10) = true.
Proof.
  destruct c as [b0 b1 b2 b3 b4 b5 b6 b7].
  destruct b0, b1, b2, b3, b4, b5, b6, b7;
    intros Hd; try discriminate Hd; repeat split; reflexivity.
Qed.

Lemma char_class_facts (c : ascii) :
  (isDecimalDigit c = false ->
   match digitVal c with Some d => d <? 10 | None => false end = false)
  /\ (isHexDigit c = true ->
      digitVal c = Some (hexDigitValue c) /\ (hexDigitValue c <? 16) = true)
  /\ (isHexDigit c = false ->
      match digitVal c with Some d => d <? 16 | None => false end = false)
  /\ (isSign c = true ->
      isStrWhiteSpaceChar c = false /\ isDecimalDigit c = false).
Proof.
  destruct c as [b0 b1 b2 b3 b4 b5 b6 b7].
  destruct b0, b1, b2, b3, b4, b5, b6, b7;
    repeat match goal with |- _ /\ _ => split end;
    intros Hc; try discriminate Hc;
    repeat match goal with |- _ /\ _ => split end; reflexivity.
Qed.

Lemma radixDigits_decimal (s : string) (acc : Z) :
  allDecimal s = true ->
  fold_left (fun a d => a * 10 + d) (radixDigits 10 s) acc
    = numeralValueFrom acc s
  /\ length (radixDigits 10 s) = String.length s.
Proof.
  revert acc. induction s as [|c rest IH]; intros acc Hs; [split; reflexivity|].
  simpl in Hs. apply andb_prop in Hs as [Hc Hrest].
  destruct (decimal_digit_facts c Hc) as (_ & _ & _ & _ & _ & Hv & Hlt).
  simpl. rewrite Hv, Hlt. simpl.
  destruct (IH (acc * 10 + (Z.of_nat (nat_of_ascii c) - 48)) Hrest) as [-> ->].
  split; reflexivity.
Qed.

Lemma trimStart_white (ws s : string) :
  allWhiteSpace ws = true -> trimStart (ws +:+ s) = trimStart s.
Proof.
  induction ws as [|c ws IH]; [reflexivity|]. simpl. intros Hw.
  apply andb_prop in Hw as [-> Hw]. exact (IH Hw).
Qed.

Lemma trimStart_nonwhite (s : string) :
  startsWith isStrWhiteSpaceChar s = false -> trimStart s = s.
Proof. destruct s as [|c s]; [reflexivity|]. simpl. intros ->. reflexivity. Qed.

Lemma radixDigits_stop (R : Z) (s : string) :
  startsWith (fun c => match digitVal c with
                       | Some d => d <? R
                       | None => false
                       end) s = false ->
  radixDigits R s = [].
Proof.
  destruct s as [|c s]; [reflexivity|]. simpl.
  destruct (digitVal c) as [d|]; [|reflexivity]. intros ->. reflexivity.
Qed.

Lemma radixDigits_decimal_stop (s : string) :
  startsWith isDecimalDigit s = false -> radixDigits 10 s = [].
Proof.
  intros Hs. apply radixDigits_stop. destruct s as [|c s]; [reflexivity|].
  simpl in *. exact (proj1 (char_class_facts c) Hs).
Qed.

Lemma radixDigits_numeral_app (s rest : string) :
  allDecimal s = true -> startsWith isDecimalDigit rest = false ->
  radixDigits 10 (s +:+ rest) = radixDigits 10 s.
Proof.
  intros Hs Hr. induction s as [|c s IH].
  - simpl. apply radixDigits_decimal_stop, Hr.
  - simpl in Hs. apply andb_prop in Hs as [Hc Hs].
    destruct (decimal_digit_facts c Hc) as (_ & _ & _ & _ & _ & Hv & Hlt).
    simpl. rewrite Hv, Hlt, (IH Hs). reflexivity.
Qed.

Lemma stripPrefix_numeral_app (s rest : string) :
  isNumeral s = true ->
  String.eqb s "0" && startsWith isLetterX rest = false ->
  stripPrefix (s +:+ rest) = (10, s +:+ rest).
Proof.
  unfold isNumeral. intros Hs Hx. apply andb_prop in Hs as [Hne Hall].
  destruct s as [|c [|x s]]; [discriminate Hne| |].
  - simpl. destruct rest as [|x rest]; [reflexivity|].
    destruct (Ascii.eqb c "0") eqn:Hc; [|reflexivity].
    apply Ascii.eqb_eq in Hc. subst c. simpl in Hx. unfold isLetterX in Hx.
    simpl. rewrite Hx. reflexivity.
  - simpl in Hall. apply andb_prop in Hall as [_ Hall].
    apply andb_prop in Hall as [Hd _].
    destruct (decimal_digit_facts x Hd) as (_ & _ & _ & Hx1 & Hx2 & _).
    simpl. rewrite Hx1, Hx2, andb_false_r. reflexivity.
Qed.

(** What is read after the white space and the sign: a numeral followed
    by anything that does not continue it. *)
Lemma parse_numeral_tail (input : string) (sign : Z) (s rest : string) :
  stripSign (trimStart input) = (sign, s +:+ rest) ->
  isNumeral s = true ->
  startsWith isDecimalDigit rest = false ->
  String.eqb s "0" && startsWith isLetterX rest = false ->
  parseIntString input
    = if numeralValue s =? 0
      then (if sign =? -1 then JNegZero else JNum 0)
      else toNumber (sign * numeralValue s).
Proof.
  intros Hsign Hs Hr Hx. unfold parseIntString. rewrite Hsign.
  rewrite (stripPrefix_numeral_app _ _ Hs Hx).
  pose proof Hs as Hs'. unfold isNumeral in Hs'.
  apply andb_prop in Hs' as [Hne Hall].
  rewrite (radixDigits_numeral_app _ _ Hall Hr).
  destruct (radixDigits_decimal s 0 Hall) as [Hval Hlen].
  unfold mathInt. fold (numeralValue s) in Hval.
  destruct (radixDigits 10 s) as [|d ds] eqn:Hds.
  - destruct s; [discriminate Hne|discriminate Hlen].
  - rewrite Hval. reflexivity.
Qed.

Lemma stripSign_digit (s : string) :
  startsWith isDecimalDigit s = true -> stripSign s = (1, s).
Proof.
  destruct s as [|c s]; [discriminate|]. simpl. intros Hc.
  destruct (decimal_digit_facts c Hc) as (_ & -> & -> & _). reflexivity.
Qed.

Lemma numeral_starts (s rest : string) :
  isNumeral s = true ->
  startsWith isDecimalDigit (s +:+ rest) = true
  /\ startsWith isStrWhiteSpaceChar (s +:+ rest) = false.
Proof.
  unfold isNumeral. intros Hs. apply andb_prop in Hs as [Hne Hall].
  destruct s as [|c s]; [discriminate Hne|]. simpl in *.
  apply andb_prop in Hall as [Hc _].
  destruct (decimal_digit_facts c Hc) as (Hw & _). auto.
Qed.

(** [parseInt] skips leading white space, reads the longest run of
    decimal digits and ignores whatever follows it. *)
Lemma parse_leading_numeral (ws s rest : string) :
  allWhiteSpace ws = true ->
  isNumeral s = true ->
  startsWith isDecimalDigit rest = false ->
  String.eqb s "0" && startsWith isLetterX rest = false ->
  parseIntString (ws +:+ s +:+ rest) = toNumber (numeralValue s).
Proof.
  intros Hw Hs Hr Hx. destruct (numeral_starts s rest Hs) as [Hd Hnw].
  assert (Hsign : stripSign (trimStart (ws +:+ s +:+ rest)) = (1, s +:+ rest)).
  { rewrite (trimStart_white _ _ Hw), (trimStart_nonwhite _ Hnw).
    apply stripSign_digit, Hd. }
  rewrite (parse_numeral_tail _ _ _ _ Hsign Hs Hr Hx).
  destruct (numeralValue s =? 0) eqn:Hz.
  - apply Z.eqb_eq in Hz. rewrite Hz. reflexivity.
  - rewrite Z.mul_1_l. reflexivity.
Qed.

Lemma string_app_empty (s : string) : s +:+ EmptyString = s.
Proof.
  induction s as [|c s IH]; [reflexivity|].
  change (String c (s +:+ EmptyString) = String c s). f_equal. exact IH.
Qed.

(** A non-empty string of decimal digits parses to the Number value of
    the integer it writes. *)
Lemma parseIntString_numeral (s : string) :
  isNumeral s = true -> parseIntString s = toNumber (numeralValue s).
Proof.
  intros Hs.
  pose proof (parse_leading_numeral EmptyString s EmptyString
                eq_refl Hs eq_refl (andb_false_r _)) as Hp.
  simpl in Hp. rewrite string_app_empty in Hp. exact Hp.
Qed.

(** A [-] before the numeral gives the negative Number, and the negative
    zero for a numeral that writes 0. *)
Lemma parse_negative_numeral (ws s rest : string) :
  allWhiteSpace ws = true ->
  isNumeral s = true ->
  startsWith isDecimalDigit rest = false ->
  String.eqb s "0" && startsWith isLetterX rest = false ->
  parseIntString (ws +:+ String "-" (s +:+ rest))
    = if numeralValue s =? 0 then JNegZero
      else toNumber (- numeralValue s).
Proof.
  intros Hw Hs Hr Hx.
  assert (Hminus : stripSign (trimStart (ws +:+ String "-" (s +:+ rest)))
                   = (-1, s +:+ rest))
    by (rewrite (trimStart_white _ _ Hw); reflexivity).
  rewrite (parse_numeral_tail _ _ _ _ Hminus Hs Hr Hx).
  destruct (numeralValue s =? 0); [reflexivity|].
  replace (-1 * numeralValue s) with (- numeralValue s) by lia.
  reflexivity.
Qed.

Lemma radixDigits_hex_app (h rest : string) (acc : Z) :
  allHex h = true -> startsWith isHexDigit rest = false ->
  fold_left (fun a d => a * 16 + d) (radixDigits 16 (h +:+ rest)) acc
    = hexValueFrom acc h
  /\ length (radixDigits 16 (h +:+ rest)) = String.length h.
Proof.
  intros Hh Hr. revert acc. induction h as [|c h IH]; intros acc.
  - simpl. rewrite radixDigits_stop; [split; reflexivity|].
    destruct rest as [|c rest]; [reflexivity|]. simpl in *.
    exact (proj1 (proj2 (proj2 (char_class_facts c))) Hr).
  - simpl in Hh. apply andb_prop in Hh as [Hc Hh].
    destruct (proj1 (proj2 (char_class_facts c)) Hc) as [Hv Hlt].
    simpl. rewrite Hv, Hlt. simpl.
    destruct (IH Hh (acc * 16 + hexDigitValue c)) as [-> ->].
    split; reflexivity.
Qed.

(** With no radix given, a numeral that begins with [0x] or [0X] is read
    in radix 16. *)
Lemma parse_hexadecimal (ws h rest : string) (x : ascii) :
  allWhiteSpace ws = true ->
  isLetterX x = true ->
  isHexNumeral h = true ->
  startsWith isHexDigit rest = false ->
  parseIntString (ws +:+ String "0" (String x (h +:+ rest)))
    = toNumber (hexValue h).
Proof.
  intros Hw Hx Hh Hr. unfold isHexNumeral in Hh.
  apply andb_prop in Hh as [Hne Hall].
  unfold parseIntString. rewrite (trimStart_white _ _ Hw).
  unfold isLetterX in Hx. simpl. rewrite Hx. simpl.
  destruct (radixDigits_hex_app h rest 0 Hall Hr) as [Hval Hlen].
  unfold mathInt. fold (hexValue h) in Hval.
  destruct (radixDigits 16 (h +:+ rest)) as [|d ds] eqn:Hds.
  - destruct h; [discriminate Hne|discriminate Hlen].
  - rewrite Hval. destruct (hexValue h =? 0) eqn:Hz.
    + apply Z.eqb_eq in Hz. rewrite Hz. reflexivity.
    + rewrite Z.mul_1_l. reflexivity.
Qed.

Lemma stripPrefix_nondigit (s : string) :
  startsWith isDecimalDigit s = false -> stripPrefix s = (10, s).
Proof.
  destruct s as [|c [|x s]]; try reflexivity. simpl. intros Hc.
  destruct (Ascii.eqb c "0") eqn:H0; [|reflexivity].
  apply Ascii.eqb_eq in H0. subst c. discriminate Hc.
Qed.

Lemma parse_no_digits (input : string) (sign : Z) (s : string) :
  stripSign (trimStart input) = (sign, s) ->
  startsWith isDecimalDigit s = false ->
  parseIntString input = JNaN.
Proof.
  intros Hsign Hs. unfold parseIntString.
  rewrite Hsign, (stripPrefix_nondigit _ Hs), (radixDigits_decimal_stop _ Hs).
  reflexivity.
Qed.

(** [parseInt] answers NaN when no numeral is there to read. *)
Lemma parse_without_numeral (ws s : string) :
  allWhiteSpace ws = true ->
  startsWith (fun c => isStrWhiteSpaceChar c || isSign c || isDecimalDigit c) s
    = false ->
  parseIntString (ws +:+ s) = JNaN.
Proof.
  intros Hw Hs. apply (parse_no_digits _ 1 s).
  - rewrite (trimStart_white _ _ Hw). destruct s as [|c s]; [reflexivity|].
    simpl in Hs. apply orb_false_elim in Hs as [Hs _].
    apply orb_false_elim in Hs as [Hws Hsg]. unfold isSign in Hsg.
    apply orb_false_elim in Hsg as [Hm Hp].
    simpl. rewrite Hws. simpl. rewrite Hm, Hp. reflexivity.
  - destruct s as [|c s]; [reflexivity|]. simpl in *.
    apply orb_false_elim in Hs as [_ Hd]. exact Hd.
Qed.

(** ** The filters of the list routes *)

Section FilterProperties.

Context {DB : Type} `{Collaborators DB}.

Lemma stringable_parseInt (o : option QueryVal) :
  stringable o = true ->
  exists s, propToString o = Some s /\ parseInt o = Returns (parseIntString s).
Proof.
  unfold stringable, parseInt. destruct (propToString o) as [s|];
    [|discriminate]. intros _. exists s. split; reflexivity.
Qed.

Lemma not_stringable_parseInt (o : option QueryVal) :
  stringable o = false -> parseInt o = Throws cannotConvert /\ propTruthy o = true.
Proof.
  unfold stringable, parseInt, propToString.
  destruct o as [q|]; [|discriminate].
  destruct (queryToString q) eqn:Hq; [discriminate|]. intros _.
  split; [reflexivity|]. destruct q; [discriminate Hq|reflexivity|reflexivity].
Qed.

Lemma companies_list_parsed (req : Request) (w : World DB) (a b : JsVal) :
  parseInt (query req !! "minEmployees") = Returns a ->
  parseInt (query req !! "maxEmployees") = Returns b ->
  calls (snd (companies_list req w))
    = calls w ++
      [Company_findAll
         (JObj [("name", ofQueryProp (query req !! "name"));
                ("minEmployees", a); ("maxEmployees", b)])].
Proof.
  intros Ha Hb. run_route. simpl. run_handler. rewrite Ha, Hb.
  destruct (dao _ (db w)) as [[r|e] d']; reflexivity.
Qed.

Lemma companies_list_raises (req : Request) (w : World DB) :
  stringable (query req !! "minEmployees")
  && stringable (query req !! "maxEmployees") = false ->
  companies_list req w = (errorResponder cannotConvert, w).
Proof.
  intros Hs. run_route. simpl. run_handler.
  destruct (stringable (query req !! "minEmployees")) eqn:Hmin.
  - destruct (stringable_parseInt _ Hmin) as (s & _ & ->).
    simpl in Hs. destruct (not_stringable_parseInt _ Hs) as [-> _].
    reflexivity.
  - destruct (not_stringable_parseInt _ Hmin) as [-> _]. reflexivity.
Qed.

Lemma jobs_list_parsed (req : Request) (w : World DB) (a : JsVal) :
  (if propTruthy (query req !! "minSalary")
   then parseInt (query req !! "minSalary") else Returns JUndefined)
    = Returns a ->
  calls (snd (jobs_list req w))
    = calls w ++
      [Job_findAll
         (JObj [("title", ofQueryProp (query req !! "title"));
                ("minSalary", a);
                ("hasEquity", JBool (propIsTrue (query req !! "hasEquity")))])].
Proof.
  intros Ha. run_route. simpl. run_handler.
  destruct (propTruthy (query req !! "minSalary")); simpl;
    [rewrite Ha|injection Ha as <-];
    destruct (dao _ (db w)) as [[r|e] d']; reflexivity.
Qed.

Lemma jobs_list_raises (req : Request) (w : World DB) :
  stringable (query req !! "minSalary") = false ->
  jobs_list req w = (errorResponder cannotConvert, w).
Proof.
  intros Hs. destruct (not_stringable_parseInt _ Hs) as [Hp Ht].
  run_route. simpl. run_handler. rewrite Ht, Hp. reflexivity.
Qed.

Lemma numeral_truthy (s : string) :
  isNumeral s = true -> propTruthy (Some (QStr s)) = true.
Proof. unfold isNumeral. intros Hs. apply andb_prop in Hs as [Hn _]. exact Hn. Qed.

(** The filters [GET /companies] passes when both conversions return. *)
Lemma companies_filters (req : Request) (w : World DB) :
  stringable (query req !! "minEmployees")
  && stringable (query req !! "maxEmployees") = true ->
  exists smin smax,
    propToString (query req !! "minEmployees") = Some smin
    /\ propToString (query req !! "maxEmployees") = Some smax
    /\ calls (snd (companies_list req w))
       = calls w ++
         [Company_findAll
            (JObj [("name", ofQueryProp (query req !! "name"));
                   ("minEmployees", parseIntString smin);
                   ("maxEmployees", parseIntString smax)])].
Proof.
  intros Hs. apply andb_prop in Hs as [Hmin Hmax].
  destruct (stringable_parseInt _ Hmin) as (smin & Hsmin & Hpmin).
  destruct (stringable_parseInt _ Hmax) as (smax & Hsmax & Hpmax).
  exists smin, smax. split; [exact Hsmin|]. split; [exact Hsmax|].
  exact (companies_list_parsed req w _ _ Hpmin Hpmax).
Qed.

(** The filters [GET /jobs] passes when the conversion returns. *)
Lemma jobs_filters (req : Request) (w : World DB) :
  stringable (query req !! "minSalary") = true ->
  exists s,
    propToString (query req !! "minSalary") = Some s
    /\ calls (snd (jobs_list req w))
       = calls w ++
         [Job_findAll
            (JObj [("title", ofQueryProp (query req !! "title"));
                   ("minSalary",
                     if propTruthy (query req !! "minSalary")
                     then parseIntString s else JUndefined);
                   ("hasEquity",
                     JBool (propIsTrue (query req !! "hasEquity")))])].
Proof.
  intros Hs. destruct (stringable_parseInt _ Hs) as (s & Hps & Hp).
  exists s. split; [exact Hps|]. apply jobs_list_parsed. rewrite Hp.
  destruct (propTruthy (query req !! "minSalary")); reflexivity.
Qed.

(** C5, as amended: unless [parseInt] raises on a numeric filter (a
    filter that is, or as an array holds, an object with its own
    [toString]; the answer is then 500 and [findAll] is not called), each
    list route makes one [findAll] call, and in the filters it passes:
    [name] and [title] are the query value as given, undefined when not
    supplied; [minEmployees], [maxEmployees] and [minSalary] supplied as a
    decimal numeral are the Number value of the integer it writes, that
    integer itself up to [2 ^ 53]; [minSalary] not supplied is undefined;
    [hasEquity] is the boolean [hasEquity === "true"], hence false when not
    supplied. *)
Theorem list_filters_passed (req : Request) (w : World DB) :
  let q k := query req !! k in
  let cf := passedFilters (snd (companies_list req w)) in
  let jf := passedFilters (snd (jobs_list req w)) in
  (stringable (q "minEmployees") && stringable (q "maxEmployees") = true ->
   calls (snd (companies_list req w)) = calls w ++ [Company_findAll cf]
   /\ field "name" cf = ofQueryProp (q "name")
   /\ (forall s, q "minEmployees" = Some (QStr s) -> isNumeral s = true ->
         isNumberOf (numeralValue s) (field "minEmployees" cf))
   /\ (forall s, q "maxEmployees" = Some (QStr s) -> isNumeral s = true ->
         isNumberOf (numeralValue s) (field "maxEmployees" cf)))
  /\ (stringable (q "minEmployees") && stringable (q "maxEmployees") = false ->
      statusCode (fst (companies_list req w)) = 500
      /\ snd (companies_list req w) = w)
  /\ (stringable (q "minSalary") = true ->
      calls (snd (jobs_list req w)) = calls w ++ [Job_findAll jf]
      /\ field "title" jf = ofQueryProp (q "title")
      /\ (forall s, q "minSalary" = Some (QStr s) -> isNumeral s = true ->
            isNumberOf (numeralValue s) (field "minSalary" jf))
      /\ (q "minSalary" = None -> field "minSalary" jf = JUndefined)
      /\ field "hasEquity" jf = JBool (propIsTrue (q "hasEquity"))
      /\ (q "hasEquity" = None -> field "hasEquity" jf = JBool false))
  /\ (stringable (q "minSalary") = false ->
      statusCode (fst (jobs_list req w)) = 500 /\ snd (jobs_list req w) = w).
Proof.
  cbv zeta. split; [|split; [|split]].
  - intros Hs. destruct (companies_filters req w Hs)
      as (smin & smax & Hmin & Hmax & Hcalls).
    unfold passedFilters. rewrite Hcalls, last_snoc.
    split; [reflexivity|]. split; [reflexivity|]. split.
    + intros s Hq Hn. rewrite Hq in Hmin. injection Hmin as <-. simpl.
      rewrite (parseIntString_numeral _ Hn). apply toNumber_isNumberOf.
    + intros s Hq Hn. rewrite Hq in Hmax. injection Hmax as <-. simpl.
      rewrite (parseIntString_numeral _ Hn). apply toNumber_isNumberOf.
  - intros Hs. rewrite (companies_list_raises req w Hs). split; reflexivity.
  - intros Hs. destruct (jobs_filters req w Hs) as (s0 & Hps & Hcalls).
    unfold passedFilters. rewrite Hcalls, last_snoc.
    split; [reflexivity|]. split; [reflexivity|]. split; [|split; [|split]].
    + intros s Hq Hn. rewrite Hq in Hps. injection Hps as <-. simpl.
      rewrite Hq, (numeral_truthy _ Hn), (parseIntString_numeral _ Hn).
      apply toNumber_isNumberOf.
    + intros Hq. simpl. rewrite Hq. reflexivity.
    + reflexivity.
    + intros Hq. simpl. rewrite Hq. reflexivity.
  - intros Hs. rewrite (jobs_list_raises req w Hs). split; reflexivity.
Qed.

End FilterProperties.

(** ** Ids and their decimal numerals *)

Lemma digitChar_facts (d : Z) :
  0 <= d < 10 ->
  isDecimalDigit (digitChar d) = true
  /\ Z.of_nat (nat_of_ascii (digitChar d)) - 48 = d.
Proof.
  intros Hd.
  assert (Hc : d = 0 \/ d = 1 \/ d = 2 \/ d = 3 \/ d = 4 \/ d = 5 \/ d = 6
               \/ d = 7 \/ d = 8 \/ d = 9) by lia.
  repeat destruct Hc as [->|Hc]; try subst d; split; reflexivity.
Qed.

Lemma numeralValueFrom_snoc (s : string) (c : ascii) (acc : Z) :
  numeralValueFrom acc (s +:+ String c EmptyString)
    = numeralValueFrom acc s * 10 + (Z.of_nat (nat_of_ascii c) - 48).
Proof.
  revert acc. induction s as [|a s IH]; intros acc; [reflexivity|].
  change (numeralValueFrom (acc * 10 + (Z.of_nat (nat_of_ascii a) - 48))
            (s +:+ String c EmptyString)
          = numeralValueFrom (acc * 10 + (Z.of_nat (nat_of_ascii a) - 48)) s
            * 10 + (Z.of_nat (nat_of_ascii c) - 48)).
  apply IH.
Qed.

Lemma allDecimal_snoc (s : string) (c : ascii) :
  allDecimal s = true -> isDecimalDigit c = true ->
  allDecimal (s +:+ String c EmptyString) = true.
Proof.
  intros Hs Hc. induction s as [|a s IH]; [simpl; rewrite Hc; reflexivity|].
  simpl in Hs. apply andb_prop in Hs as [Ha Hs].
  change (isDecimalDigit a && allDecimal (s +:+ String c EmptyString) = true).
  rewrite Ha, (IH Hs). reflexivity.
Qed.

Lemma snoc_nonempty (s : string) (c : ascii) :
  negb (String.eqb (s +:+ String c EmptyString) EmptyString) = true.
Proof. destruct s; reflexivity. Qed.

Lemma renderDigits_spec (fuel : nat) (n : Z) :
  0 <= n < Z.of_nat fuel ->
  isNumeral (renderDigits fuel n) = true
  /\ numeralValue (renderDigits fuel n) = n.
Proof.
  revert n. induction fuel as [|fuel IH]; intros n Hn; [lia|].
  assert (Hmod : 0 <= n mod 10 < 10) by (apply Z.mod_pos_bound; lia).
  destruct (digitChar_facts _ Hmod) as [Hd Hv].
  pose proof (Z.div_mod n 10 ltac:(lia)) as Hdm.
  unfold isNumeral, numeralValue. simpl renderDigits.
  rewrite snoc_nonempty, numeralValueFrom_snoc, Hv. simpl.
  destruct (n <? 10) eqn:Hlt.
  - apply Z.ltb_lt in Hlt. split.
    + simpl. rewrite Hd. reflexivity.
    + simpl. rewrite Z.mod_small; lia.
  - apply Z.ltb_ge in Hlt.
    destruct (IH (n / 10)) as [Hnum Hval]; [lia|].
    unfold isNumeral in Hnum. apply andb_prop in Hnum as [_ Hall].
    split.
    + apply allDecimal_snoc; assumption.
    + unfold numeralValue in Hval. rewrite Hval. lia.
Qed.

Lemma parseKey_numeral (s : string) :
  isNumeral s = true -> parseKey (JStr s) = Some (numeralValue s).
Proof.
  unfold isNumeral. intros Hs. apply andb_prop in Hs as [Hne Hall].
  destruct (radixDigits_decimal s 0 Hall) as [Hval Hlen].
  unfold parseKey, mathInt. rewrite Hne, Hlen, Nat.eqb_refl, Hval. reflexivity.
Qed.

(** The decimal numeral of an id is a path key for it. *)
Lemma parseKey_renderId (n : Z) :
  0 <= n -> parseKey (JStr (renderId n)) = Some n.
Proof.
  intros Hn. destruct (renderDigits_spec (S (Z.to_nat n)) n) as [Hnum Hval];
    [lia|].
  unfold renderId. rewrite (parseKey_numeral _ Hnum), Hval. reflexivity.
Qed.

Lemma fold_max_bounds (l : list Z) :
  0 <= fold_right Z.max 0 l /\ forall k, In k l -> k <= fold_right Z.max 0 l.
Proof.
  induction l as [|a l [IH0 IHk]]; simpl.
  - split; [lia|]. intros k [].
  - split; [lia|]. intros k [->|Hk]; [lia|]. specialize (IHk k Hk). lia.
Qed.

(** The id [freshId] picks is positive and names no stored job. *)
Lemma freshId_fresh (jobs : gmap Z JsVal) :
  0 < freshId jobs /\ jobs !! freshId jobs = None.
Proof.
  unfold freshId.
  destruct (fold_max_bounds (map fst (map_to_list jobs))) as [H0 Hk].
  split; [lia|].
  destruct (jobs !! (1 + fold_right Z.max 0 (map fst (map_to_list jobs))))
    as [row|] eqn:Hrow; [|reflexivity].
  apply elem_of_map_to_list in Hrow. apply list_elem_of_In in Hrow.
  apply (in_map fst) in Hrow. apply Hk in Hrow. simpl in Hrow. lia.
Qed.

(** ** The round trip of a job through the reference persistence model *)

Section RoundTrip.

Variables companyMatches jobMatches : JsVal -> JsVal -> bool.
Variable validator : JsVal -> Schema -> ValidatorResult.
Variable tokens : JsVal -> string.
Variables unauthorized generic : string.

Local Abbreviation app :=
  (memApp companyMatches jobMatches validator tokens unauthorized generic).

Lemma jobs_get_mem (get : Request) (w : World MemDb) (key : string) (i : Z) :
  params get !! "id" = Some key ->
  parseKey (JStr key) = Some i ->
  fst (@jobs_get MemDb app get w)
    = match jobRows (db w) !! i with
      | Some row => {| statusCode := 200; json := JObj [("job", row)] |}
      | None => @errorResponder MemDb app (NotFoundError "No job")
      end.
Proof.
  intros Hk Hp. run_route. simpl. run_handler. unfold param. rewrite Hk.
  simpl. unfold parseKey in Hp. rewrite Hp. simpl.
  destruct (jobRows (db w) !! i); reflexivity.
Qed.

(** C8: over the reference persistence model, when an admin request POST
    /jobs with the body [{title: "Engineer", salary: 100000, equity: "0.1",
    companyHandle: "ibm"}], valid against the new-job schema, succeeds
    (201), the answer holds those four fields and an assigned id, a
    positive integer.  GET /jobs/:id with the decimal numeral of that id
    as path key (or any other key that writes it) is answered 404 before
    the POST and, after it, 200 with the same four fields and the id. *)
Theorem job_round_trip (post : Request) (w : World MemDb) :
  byAdmin post ->
  body post = engineerBody ->
  valid (validator engineerBody jobNewSchema) = true ->
  statusCode (fst (@jobs_post MemDb app post w)) = 201 ->
  exists i : Z,
    0 < i
    /\ fst (@jobs_post MemDb app post w)
       = {| statusCode := 201; json := JObj [("job", engineerJob i)] |}
    /\ forall (get : Request) (key : string),
         params get !! "id" = Some key ->
         key = renderId i \/ parseKey (JStr key) = Some i ->
         statusCode (fst (@jobs_get MemDb app get w)) = 404
         /\ fst (@jobs_get MemDb app get (snd (@jobs_post MemDb app post w)))
            = {| statusCode := 200; json := JObj [("job", engineerJob i)] |}.
Proof.
  intros Ha Hb Hv Hok.
  destruct (freshId_fresh (jobRows (db w))) as [Hpos Hfresh].
  exists (freshId (jobRows (db w))).
  assert (Hpost : @jobs_post MemDb app post w
            = ({| statusCode := 201;
                  json := JObj [("job", engineerJob (freshId (jobRows (db w))))] |},
               {| db := {| userRows := userRows (db w);
                           companyRows := companyRows (db w);
                           jobRows := <[freshId (jobRows (db w)) :=
                                          engineerJob (freshId (jobRows (db w)))]>
                                        (jobRows (db w)) |};
                  calls := calls w ++ [Job_create engineerBody] |})).
  { revert Hok. run_route. rewrite (admin_route _ _ _ Ha).
    run_handler. rewrite Hb. simpl. rewrite Hv. simpl.
    destruct (companyRows (db w) !! "ibm") as [c|] eqn:Hc; simpl;
      [intros _; reflexivity|discriminate]. }
  split; [exact Hpos|]. split; [rewrite Hpost; reflexivity|].
  intros get key Hk Hkey.
  assert (Hp : parseKey (JStr key) = Some (freshId (jobRows (db w)))).
  { destruct Hkey as [->|Hp]; [apply parseKey_renderId; lia|exact Hp]. }
  rewrite Hpost. rewrite !(jobs_get_mem _ _ _ _ Hk Hp). simpl.
  rewrite Hfresh, lookup_insert_eq. split; reflexivity.
Qed.

End RoundTrip.

(** ** The properties on the sample deployment *)

Lemma non_admin_write_rejected_witness :
  nonAdmin reqU1Write
  /\ Forall (fun r : Route =>
               statusCode (fst (r reqU1Write sampleWorld)) = 401
               /\ snd (r reqU1Write sampleWorld) = sampleWorld)
       adminWriteRoutes.
Proof.
  split; [reflexivity|].
  apply (non_admin_write_rejected reqU1Write sampleWorld). reflexivity.
Defined.

Lemma stranger_bad_body : byStranger reqStrangerBadBody.
Proof. exists principalU2. split; reflexivity. Qed.

Lemma stranger_existing : byStranger reqStranger.
Proof. exists principalU2. split; reflexivity. Qed.

Lemma stranger_missing : byStranger reqStrangerMissing.
Proof. exists principalU2. split; reflexivity. Qed.

Lemma u1_exists :
  returnsEntity (User_get (param reqStranger "username")) sampleDb userU1.
Proof. split; [reflexivity|]. exists sampleDb. reflexivity. Qed.

Lemma ghost_missing :
  raisesNotFound (User_get (param reqStrangerMissing "username")) sampleDb.
Proof. exists "No user: ghost", sampleDb. reflexivity. Qed.

Lemma users_patch_validates_first_witness :
  byStranger reqStrangerBadBody
  /\ statusCode (fst (users_patch reqStrangerBadBody sampleWorld)) = 400
  /\ snd (users_patch reqStrangerBadBody sampleWorld) = sampleWorld
  /\ statusCode (fst (users_delete reqStrangerBadBody sampleWorld)) = 401
  /\ snd (users_delete reqStrangerBadBody sampleWorld) = sampleWorld.
Proof.
  split; [exact stranger_bad_body|].
  exact (users_patch_validates_first_delete_checks_first
           reqStrangerBadBody sampleWorld stranger_bad_body).
Defined.

(** C2, as stated, fails: a logged-in non-admin who addresses another
    user's PATCH with a body that fails the update schema is answered 400,
    not 401. *)
Lemma stranger_patch_bad_body_is_400 :
  byStranger reqStrangerBadBody
  /\ statusCode (fst (users_patch reqStrangerBadBody sampleWorld)) = 400.
Proof. split; [exact stranger_bad_body|reflexivity]. Qed.

Lemma stranger_unauthorized_witness :
  byStranger reqStranger
  /\ valid (validate (body reqStranger) userUpdateSchema) = true
  /\ returnsEntity (User_get (param reqStranger "username")) sampleDb userU1
  /\ statusCode (fst (users_delete reqStranger sampleWorld)) = 401
  /\ statusCode (fst (users_patch reqStranger sampleWorld)) = 401
  /\ statusCode (fst (users_get reqStranger sampleWorld)) = 401.
Proof.
  split; [exact stranger_existing|]. split; [reflexivity|].
  split; [exact u1_exists|].
  destruct (stranger_unauthorized reqStranger sampleWorld stranger_existing)
    as (Hd & Hp & Hg).
  split; [exact Hd|]. split; [exact (Hp eq_refl)|exact (Hg userU1 u1_exists)].
Defined.

Lemma admin_is_self_or_admin : bySelfOrAdmin reqAdminMissing.
Proof. exists principalAdmin. split; reflexivity. Qed.

Lemma u1_is_self : bySelfOrAdmin reqSelf.
Proof. exists principalU1. split; reflexivity. Qed.

(** C4, as stated, fails twice: a create request with a body that fails
    its schema is answered 401 when a non-admin sends it, and when an
    administrator sends it to POST /companies the message payload of the
    400 is one string, the descriptions joined, not a list. *)
Lemma invalid_body_401_or_joined_string :
  (valid (validate (body reqU1Write) companyNewSchema) = false
   /\ statusCode (fst (companies_post reqU1Write sampleWorld)) = 401)
  /\ (byAdmin reqAdminEmptyBody
      /\ valid (validate (body reqAdminEmptyBody) companyNewSchema) = false
      /\ statusCode (fst (companies_post reqAdminEmptyBody sampleWorld)) = 400
      /\ errorPayload (fst (companies_post reqAdminEmptyBody sampleWorld))
           = JStr "instance requires property handle, instance requires property name").
Proof.
  split; [split; reflexivity|].
  split; [exists principalAdmin; split; reflexivity|].
  repeat split; reflexivity.
Qed.

Lemma invalid_body_rejected_witness :
  Forall (fun '(r, s, g, shape) =>
            g reqAdminBadBody = Returns tt
            /\ valid (validate (body reqAdminBadBody) s) = false
            /\ statusCode (fst (r reqAdminBadBody sampleWorld)) = 400
            /\ errorPayload (fst (r reqAdminBadBody sampleWorld))
                 = payloadOf shape ["instance is not of a type(s) object"]
            /\ snd (r reqAdminBadBody sampleWorld) = sampleWorld)
    validatedRoutes.
Proof.
  pose proof (invalid_body_rejected reqAdminBadBody sampleWorld) as Hall.
  unfold validatedRoutes in *.
  repeat match goal with
         | Hx : Forall _ (_ :: _) |- _ =>
             apply Forall_cons_1 in Hx; destruct Hx as [?Hhead ?Htail]
         end.
  repeat first
    [ apply Forall_nil_2
    | apply Forall_cons_2;
      [ split; [reflexivity|]; split; [reflexivity|];
        match goal with
        | Hh : _ -> _ -> _ |- _ =>
            destruct (Hh eq_refl eq_refl) as (_ & Hs & Hp & Hw); clear Hh;
            split; [exact Hs|]; split; [exact Hp|exact Hw]
        end
      | ] ].
Defined.

(** C5, as stated, fails: a list request that supplies no [hasEquity]
    passes [hasEquity: false] to [Job.findAll], not undefined. *)
Lemma absent_hasEquity_passed_false :
  query reqListPlain !! "hasEquity" = None
  /\ field "hasEquity" (passedFilters (snd (jobs_list reqListPlain sampleWorld)))
       = JBool false.
Proof. split; reflexivity. Qed.

(** The guard of [minSalary] is missing from the companies route: an
    absent [minEmployees] or [maxEmployees] is passed as NaN. *)
Lemma absent_minEmployees_passed_NaN :
  query reqListPlain !! "minEmployees" = None
  /\ field "minEmployees"
       (passedFilters (snd (companies_list reqListPlain sampleWorld))) = JNaN
  /\ field "maxEmployees"
       (passedFilters (snd (companies_list reqListPlain sampleWorld))) = JNaN.
Proof. repeat split; reflexivity. Qed.

Lemma ghost_removal_missing :
  raisesNotFound (User_remove (param reqStrangerMissing "username")) sampleDb.
Proof. exists "No user: ghost", sampleDb. reflexivity. Qed.

(** C7, as stated, fails: DELETE /users/:username for a username that
    names no user is answered 401, not 404, when a logged-in non-admin
    other than that user asks. *)
Lemma delete_missing_by_stranger_is_401 :
  byStranger reqStrangerMissing
  /\ raisesNotFound (User_remove (param reqStrangerMissing "username")) sampleDb
  /\ statusCode (fst (users_delete reqStrangerMissing sampleWorld)) = 401.
Proof.
  split; [exact stranger_missing|]. split; [exact ghost_removal_missing|].
  reflexivity.
Qed.

Lemma admin_missing : byAdmin reqAdminMissing.
Proof. exists principalAdmin. split; reflexivity. Qed.

Lemma delete_missing_key_witness :
  raisesNotFound (Company_remove (param reqAdminMissing "handle")) sampleDb
  /\ raisesNotFound (Job_remove (param reqAdminMissing "id")) sampleDb
  /\ raisesNotFound (User_remove (param reqAdminMissing "username")) sampleDb
  /\ byAdmin reqAdminMissing /\ bySelfOrAdmin reqAdminMissing
  /\ statusCode (fst (companies_delete reqAdminMissing sampleWorld)) = 404
  /\ statusCode (fst (jobs_delete reqAdminMissing sampleWorld)) = 404
  /\ statusCode (fst (users_delete reqAdminMissing sampleWorld)) = 404.
Proof.
  assert (Hc : raisesNotFound (Company_remove (param reqAdminMissing "handle")) sampleDb)
    by (exists "No company: nope", sampleDb; reflexivity).
  assert (Hj : raisesNotFound (Job_remove (param reqAdminMissing "id")) sampleDb)
    by (exists "No job", sampleDb; reflexivity).
  assert (Hu : raisesNotFound (User_remove (param reqAdminMissing "username")) sampleDb)
    by (exists "No user: ghost", sampleDb; reflexivity).
  destruct (delete_missing_key reqAdminMissing sampleWorld) as (C & J & U).
  split; [exact Hc|]. split; [exact Hj|]. split; [exact Hu|].
  split; [exact admin_missing|]. split; [exact admin_is_self_or_admin|].
  split; [exact (proj2 (C Hc) admin_missing)|].
  split; [exact (proj2 (J Hj) admin_missing)
         |exact (proj2 (U Hu) admin_is_self_or_admin)].
Defined.

Lemma list_filters_passed_witness :
  (stringable (query reqListFiltered !! "minEmployees")
   && stringable (query reqListFiltered !! "maxEmployees") = true
   /\ stringable (query reqListFiltered !! "minSalary") = true
   /\ query reqListFiltered !! "minEmployees" = Some (QStr "10")
   /\ query reqListFiltered !! "maxEmployees" = Some (QStr "500")
   /\ query reqListFiltered !! "minSalary" = Some (QStr "100000")
   /\ isNumeral "10" = true /\ isNumeral "500" = true
   /\ isNumeral "100000" = true
   /\ field "minEmployees"
        (passedFilters (snd (companies_list reqListFiltered sampleWorld)))
        = JNum (inject_Z 10)
   /\ field "maxEmployees"
        (passedFilters (snd (companies_list reqListFiltered sampleWorld)))
        = JNum (inject_Z 500)
   /\ field "minSalary"
        (passedFilters (snd (jobs_list reqListFiltered sampleWorld)))
        = JNum (inject_Z 100000))
  /\ (stringable (query reqListPlain !! "minSalary") = true
      /\ query reqListPlain !! "minSalary" = None
      /\ query reqListPlain !! "hasEquity" = None
      /\ field "minSalary"
           (passedFilters (snd (jobs_list reqListPlain sampleWorld)))
           = JUndefined
      /\ field "hasEquity"
           (passedFilters (snd (jobs_list reqListPlain sampleWorld)))
           = JBool false)
  /\ (stringable (query reqListOwnToString !! "minEmployees")
      && stringable (query reqListOwnToString !! "maxEmployees") = false
      /\ stringable (query reqListOwnToString !! "minSalary") = false
      /\ statusCode (fst (companies_list reqListOwnToString sampleWorld)) = 500
      /\ snd (companies_list reqListOwnToString sampleWorld) = sampleWorld
      /\ statusCode (fst (jobs_list reqListOwnToString sampleWorld)) = 500
      /\ snd (jobs_list reqListOwnToString sampleWorld) = sampleWorld).
Proof.
  destruct (list_filters_passed reqListFiltered sampleWorld)
    as (Hc & _ & Hj & _).
  destruct (Hc eq_refl) as (_ & _ & Hmin & Hmax).
  destruct (Hj eq_refl) as (_ & _ & Hsal & _).
  destruct (list_filters_passed reqListPlain sampleWorld)
    as (_ & _ & Hj' & _).
  destruct (Hj' eq_refl) as (_ & _ & _ & Hnone & _ & Heq).
  destruct (list_filters_passed reqListOwnToString sampleWorld)
    as (_ & Hcr & _ & Hjr).
  split; [|split].
  - do 8 (split; [reflexivity|]).
    split; [exact (proj2 (Hmin "10" eq_refl eq_refl) ltac:(vm_compute; discriminate))|].
    split; [exact (proj2 (Hmax "500" eq_refl eq_refl) ltac:(vm_compute; discriminate))
           |exact (proj2 (Hsal "100000" eq_refl eq_refl) ltac:(vm_compute; discriminate))].
  - do 3 (split; [reflexivity|]).
    split; [exact (Hnone eq_refl)|exact (Heq eq_refl)].
  - do 2 (split; [reflexivity|]).
    destruct (Hcr eq_refl) as [Hc1 Hc2]. destruct (Hjr eq_refl) as [Hj1 Hj2].
    repeat split; assumption.
Defined.

Lemma self_logged_in : user reqSelf = Some principalU1.
Proof. reflexivity. Qed.

Lemma users_get_is_500_as_shipped_witness :
  user reqSelf = Some principalU1
  /\ statusCode (fst (@users_get MemDb (shipped sampleApp) reqSelf sampleWorld))
       = 500
  /\ db (snd (@users_get MemDb (shipped sampleApp) reqSelf sampleWorld))
       = sampleDb.
Proof.
  split; [exact self_logged_in|].
  exact (users_get_is_500_as_shipped sampleApp reqSelf sampleWorld principalU1
           self_logged_in).
Defined.

Lemma users_get_same_answer_as_shipped_witness :
  user reqStranger = Some principalU2
  /\ user reqStrangerMissing = Some principalU2
  /\ fst (@users_get MemDb (shipped sampleApp) reqStranger sampleWorld)
       = fst (@users_get MemDb (shipped sampleApp) reqStrangerMissing
                sampleWorld).
Proof.
  do 2 (split; [reflexivity|]).
  exact (proj1 (users_get_same_answer_as_shipped sampleApp reqStranger
                  reqStrangerMissing sampleWorld sampleWorld
                  principalU2 principalU2 eq_refl eq_refl)).
Defined.

Lemma admin_new_user : byAdmin reqAdminNewUser.
Proof. exists principalAdmin. split; reflexivity. Qed.

Lemma users_post_is_500_as_shipped_witness :
  byAdmin reqAdminNewUser
  /\ valid (sampleValidate (body reqAdminNewUser) userNewSchema) = true
  /\ statusCode
       (fst (@users_post MemDb (shipped sampleApp) reqAdminNewUser sampleWorld))
       = 500
  /\ db (snd (@users_post MemDb (shipped sampleApp) reqAdminNewUser
                sampleWorld))
       = sampleDb.
Proof.
  split; [exact admin_new_user|]. split; [reflexivity|].
  exact (proj2 (users_post_is_500_as_shipped sampleApp reqAdminNewUser
                  sampleWorld admin_new_user (eq_refl true))).
Defined.

Lemma job_round_trip_witness :
  byAdmin reqAdminPostJob
  /\ body reqAdminPostJob = engineerBody
  /\ valid (sampleValidate engineerBody jobNewSchema) = true
  /\ statusCode (fst (jobs_post reqAdminPostJob sampleWorld)) = 201
  /\ params reqGetJob2 !! "id" = Some "2"
  /\ renderId 2 = "2"
  /\ statusCode (fst (jobs_get reqGetJob2 sampleWorld)) = 404
  /\ fst (jobs_get reqGetJob2 (snd (jobs_post reqAdminPostJob sampleWorld)))
       = {| statusCode := 200; json := JObj [("job", engineerJob 2)] |}.
Proof.
  assert (Ha : byAdmin reqAdminPostJob)
    by (exists principalAdmin; split; reflexivity).
  split; [exact Ha|]. do 5 (split; [reflexivity|]).
  destruct (job_round_trip (fun _ _ => true) (fun _ _ => true) sampleValidate
              sampleToken "Unauthorized" "Something went wrong"
              reqAdminPostJob sampleWorld Ha eq_refl eq_refl eq_refl)
    as (i & Hpos & Hpost & Hget).
  assert (Hi : i = 2).
  { vm_compute in Hpost. injection Hpost as Hi.
    destruct i; try discriminate; injection Hi as ->; reflexivity. }
  subst i. exact (Hget reqGetJob2 "2" eq_refl (or_introl eq_refl)).
Defined.

(** ** Properties of all the routes *)

(** Splitting a route into the paths a request can take through it. *)
Ltac route_paths req :=
  run_route; unfold ensureAdmin, ensureLoggedIn; simpl;
  let Hu := fresh "Hu" in
  destruct (user req) as [?p|] eqn:Hu; simpl;
  run_handler; rewrite ?Hu; simpl;
  repeat first
    [ match goal with
      | |- context [parseInt ?o] => destruct (parseInt o); simpl
      end
    | match goal with
      | |- context [dao ?c ?d] =>
          let Hd := fresh "Hd" in
          destruct (dao c d) as [[?row|?err] ?d'] eqn:Hd; simpl
      end
    | match goal with
      | |- context [if ?b then _ else _] => destruct b eqn:?; simpl
      end
    | match goal with
      | |- context [match params req !! ?k with _ => _ end] =>
          destruct (params req !! k); simpl
      end ].

Section AllRoutes.

Context {DB : Type} `{Collaborators DB}.

(** X1: whatever the request and the state, a route of the three routers
    either leaves the state as it was, or makes exactly one data-access
    call, the one it is written to make (with the path key and the body of
    the request as arguments), whose effect is the whole change of the
    persistence state. *)
Theorem route_makes_at_most_its_call (req : Request) (w : World DB) :
  Forall (fun '(r, expected) =>
            snd (r req w) = w
            \/ exists c, expected req c /\ snd (r req w) = afterCall c w)
    routeTable.
Proof.
  unfold routeTable.
  repeat first [apply Forall_nil_2 | apply Forall_cons_2];
    cbv beta iota; unfold afterCall;
    route_paths req;
    first [ left; reflexivity
          | right; eexists; split;
            [ first [reflexivity | eexists; reflexivity]
            | rewrite Hd; reflexivity ] ].
Qed.

Lemma route_outcome (req : Request) (w : World DB) :
  Forall (fun '(r, _) =>
            snd (r req w) = w
            \/ exists c0,
                 snd (r req w) = afterCall c0 w
                 /\ forall e, fst (dao c0 (db w)) = Throws e ->
                              fst (r req w) = errorResponder e)
    routeTable.
Proof.
  unfold routeTable.
  repeat first [apply Forall_nil_2 | apply Forall_cons_2];
    cbv beta iota; unfold afterCall;
    route_paths req;
    first [ left; reflexivity
          | right; eexists; split;
            [ rewrite Hd; reflexivity
            | let raised := fresh "raised" in
              let Hr := fresh "Hr" in
              intros raised Hr; rewrite Hd in Hr; simpl in Hr;
              first [discriminate Hr | injection Hr as <-; reflexivity] ] ].
Qed.

(** X2: a condition raised by the data-access call of a route is never
    swallowed or replaced: whenever a route has made the call [c] and [c]
    raised [e], the answer is the error responder's answer for [e]. *)
Theorem raised_condition_forwarded
    (req : Request) (w : World DB) (c : DaoCall) (e : JsError) :
  Forall (fun '(r, _) =>
            calls (snd (r req w)) = calls w ++ [c] ->
            fst (dao c (db w)) = Throws e ->
            fst (r req w) = errorResponder e)
    routeTable.
Proof.
  eapply Forall_impl; [apply (route_outcome req w)|].
  intros [r expected] [Hsame|(c0 & Hafter & Hfwd)] Hcalls Hraise.
  - rewrite Hsame in Hcalls. apply (f_equal length) in Hcalls.
    rewrite length_app in Hcalls. simpl in Hcalls. lia.
  - rewrite Hafter in Hcalls. simpl in Hcalls.
    apply app_inj_tail in Hcalls as [_ ->]. exact (Hfwd e Hraise).
Qed.

(** X3: a DELETE by an authorized requester (an administrator; for the
    users route the user the path names or an administrator) whose removal
    returns is answered 200 with [{ deleted: key }], the key being the
    path parameter, whatever the removal returned; the removal is the one
    call made. *)
Theorem delete_answers_deleted_key (req : Request) (w : World DB) :
  (byAdmin req -> forall v d',
     dao (Company_remove (param req "handle")) (db w) = (Returns v, d') ->
     companies_delete req w
       = ({| statusCode := 200;
             json := JObj [("deleted", param req "handle")] |},
          {| db := d';
             calls := calls w ++ [Company_remove (param req "handle")] |}))
  /\ (byAdmin req -> forall v d',
        dao (Job_remove (param req "id")) (db w) = (Returns v, d') ->
        jobs_delete req w
          = ({| statusCode := 200; json := JObj [("deleted", param req "id")] |},
             {| db := d'; calls := calls w ++ [Job_remove (param req "id")] |}))
  /\ (bySelfOrAdmin req -> forall v d',
        dao (User_remove (param req "username")) (db w) = (Returns v, d') ->
        users_delete req w
          = ({| statusCode := 200;
                json := JObj [("deleted", param req "username")] |},
             {| db := d';
                calls := calls w ++ [User_remove (param req "username")] |})).
Proof.
  split; [|split].
  - intros Ha v d' Hd. run_route. rewrite (admin_route _ _ _ Ha).
    run_handler. rewrite Hd. reflexivity.
  - intros Ha v d' Hd. run_route. rewrite (admin_route _ _ _ Ha).
    run_handler. rewrite Hd. reflexivity.
  - intros (p & Hu & Hs) v d' Hd. run_route.
    rewrite (loggedIn_route _ _ _ _ Hu). run_handler.
    rewrite Hu. simpl. rewrite Hs. rewrite Hd. reflexivity.
Qed.

(** X4: POST /companies and POST /jobs by an administrator with a body
    that passes the schema hand the whole body to the creation and, when
    it returns, answer 201 with the record it returned. *)
Theorem create_answers_created (req : Request) (w : World DB) :
  byAdmin req ->
  (valid (validate (body req) companyNewSchema) = true ->
   forall row d',
     dao (Company_create (body req)) (db w) = (Returns row, d') ->
     companies_post req w
       = ({| statusCode := 201; json := JObj [("company", row)] |},
          {| db := d'; calls := calls w ++ [Company_create (body req)] |}))
  /\ (valid (validate (body req) jobNewSchema) = true ->
      forall row d',
        dao (Job_create (body req)) (db w) = (Returns row, d') ->
        jobs_post req w
          = ({| statusCode := 201; json := JObj [("job", row)] |},
             {| db := d'; calls := calls w ++ [Job_create (body req)] |})).
Proof.
  intros Ha. split; intros Hv row d' Hd; run_route;
    rewrite (admin_route _ _ _ Ha); run_handler; rewrite Hv; simpl;
    rewrite Hd; reflexivity.
Qed.

(** X5: a PATCH by an authorized requester with a body that passes the
    update schema hands the path key and the whole body to the update and,
    when it returns, answers 200 with the record it returned. *)
Theorem update_answers_updated (req : Request) (w : World DB) :
  (byAdmin req ->
   valid (validate (body req) companyUpdateSchema) = true ->
   forall row d',
     dao (Company_update (param req "handle") (body req)) (db w)
       = (Returns row, d') ->
     companies_patch req w
       = ({| statusCode := 200; json := JObj [("company", row)] |},
          {| db := d';
             calls := calls w
                      ++ [Company_update (param req "handle") (body req)] |}))
  /\ (byAdmin req ->
      valid (validate (body req) jobUpdateSchema) = true ->
      forall row d',
        dao (Job_update (param req "id") (body req)) (db w)
          = (Returns row, d') ->
        jobs_patch req w
          = ({| statusCode := 200; json := JObj [("job", row)] |},
             {| db := d';
                calls := calls w
                         ++ [Job_update (param req "id") (body req)] |}))
  /\ (bySelfOrAdmin req ->
      valid (validate (body req) userUpdateSchema) = true ->
      forall row d',
        dao (User_update (param req "username") (body req)) (db w)
          = (Returns row, d') ->
        users_patch req w
          = ({| statusCode := 200; json := JObj [("user", row)] |},
             {| db := d';
                calls := calls w
                         ++ [User_update (param req "username") (body req)] |})).
Proof.
  split; [|split].
  - intros Ha Hv row d' Hd. run_route. rewrite (admin_route _ _ _ Ha).
    run_handler. rewrite Hv. simpl. rewrite Hd. reflexivity.
  - intros Ha Hv row d' Hd. run_route. rewrite (admin_route _ _ _ Ha).
    run_handler. rewrite Hv. simpl. rewrite Hd. reflexivity.
  - intros (p & Hu & Hs) Hv row d' Hd. run_route.
    rewrite (loggedIn_route _ _ _ _ Hu). run_handler.
    rewrite Hv. simpl. rewrite Hu. simpl. rewrite Hs. rewrite Hd. reflexivity.
Qed.

(** X6: with [User] bound as [models/user.js] binds it, the users
    routes that get as far as their [User] call answer 500 and change
    nothing: GET /users by an administrator, PATCH /users/:username by the
    user the path names or an administrator with a body that passes the
    update schema, and DELETE /users/:username by such a requester. *)
Theorem users_routes_fail_as_shipped (req : Request) (w : World DB) :
  (byAdmin req ->
   statusCode (fst (@users_list DB (shipped H) req w)) = 500
   /\ db (snd (@users_list DB (shipped H) req w)) = db w)
  /\ (bySelfOrAdmin req ->
      valid (validate (body req) userUpdateSchema) = true ->
      statusCode (fst (@users_patch DB (shipped H) req w)) = 500
      /\ db (snd (@users_patch DB (shipped H) req w)) = db w)
  /\ (bySelfOrAdmin req ->
      statusCode (fst (@users_delete DB (shipped H) req w)) = 500
      /\ db (snd (@users_delete DB (shipped H) req w)) = db w).
Proof.
  split; [|split].
  - intros Ha. run_route. rewrite (admin_route _ _ _ Ha). split; reflexivity.
  - intros (p & Hu & Hs) Hv. run_route. rewrite (loggedIn_route _ _ _ _ Hu).
    run_handler. simpl. rewrite Hv. simpl. rewrite Hu. simpl. rewrite Hs.
    split; reflexivity.
  - intros (p & Hu & Hs). run_route. rewrite (loggedIn_route _ _ _ _ Hu).
    run_handler. simpl. rewrite Hu. simpl. rewrite Hs. split; reflexivity.
Qed.

(** X7: a request with no principal to GET, PATCH or DELETE
    /users/:username is handed to the error responder as Unauthorized
    before the body is validated and before any data-access call: the
    state is the one before the request, and the read of
    [req.user.username] in the handlers is never reached. *)
Theorem anonymous_user_routes_rejected (req : Request) (w : World DB) :
  user req = None ->
  users_get req w = (errorResponder UnauthorizedError, w)
  /\ users_patch req w = (errorResponder UnauthorizedError, w)
  /\ users_delete req w = (errorResponder UnauthorizedError, w).
Proof.
  intros Hu.
  assert (Hg : ensureLoggedIn req = Throws UnauthorizedError)
    by (unfold ensureLoggedIn; rewrite Hu; reflexivity).
  run_route. rewrite !(route_rejected _ _ _ _ _ _ Hg). auto.
Qed.

(** X9: the two public reads treat a missing row differently.  When
    [Company.get] returns no company, GET /companies/:handle hands the
    not-found condition to the error responder, with the handle in its
    message; GET /jobs/:id has no such test and answers 200 with whatever
    [Job.get] returned, a missing row included. *)
Theorem public_get_no_row (req : Request) (w : World DB) :
  (forall h, params req !! "handle" = Some h ->
     returnsNothing (Company_get (param req "handle")) (db w) ->
     fst (companies_get req w)
       = errorResponder
           (NotFoundError ("No company found with handle: " +:+ h)))
  /\ (forall row d',
        dao (Job_get (param req "id")) (db w) = (Returns row, d') ->
        fst (jobs_get req w)
          = {| statusCode := 200; json := JObj [("job", row)] |}).
Proof.
  split.
  - intros h Hh (row & d' & Hd & Ht). run_route. simpl. run_handler.
    rewrite Hd, Ht. simpl. rewrite Hh. reflexivity.
  - intros row d' Hd. run_route. simpl. run_handler. rewrite Hd. reflexivity.
Qed.

(** X18: the two public reads by key, for anyone: GET /companies/:handle
    and GET /jobs/:id are answered 404 when the data-access read raises
    the not-found condition, and 200 with the entity when it returns the
    entity. *)
Theorem public_get_by_key_answers (req : Request) (w : World DB) :
  (raisesNotFound (Company_get (param req "handle")) (db w) ->
   statusCode (fst (companies_get req w)) = 404)
  /\ (forall row,
        returnsEntity (Company_get (param req "handle")) (db w) row ->
        fst (companies_get req w)
          = {| statusCode := 200; json := JObj [("company", row)] |})
  /\ (raisesNotFound (Job_get (param req "id")) (db w) ->
      statusCode (fst (jobs_get req w)) = 404)
  /\ (forall row,
        returnsEntity (Job_get (param req "id")) (db w) row ->
        fst (jobs_get req w)
          = {| statusCode := 200; json := JObj [("job", row)] |}).
Proof.
  repeat split.
  - intros (m & d' & Hd). run_route. simpl. run_handler. rewrite Hd. reflexivity.
  - intros row (Ht & d' & Hd). run_route. simpl. run_handler.
    rewrite Hd, Ht. reflexivity.
  - intros (m & d' & Hd). run_route. simpl. run_handler. rewrite Hd. reflexivity.
  - intros row (Ht & d' & Hd). run_route. simpl. run_handler.
    rewrite Hd. reflexivity.
Qed.

End AllRoutes.

(** ** What the list routes pass for a numeric filter *)

Section ListRoutes.

Context {DB : Type} `{Collaborators DB}.

Lemma companies_field (req : Request) (w : World DB) (key : string) :
  stringable (query req !! "minEmployees")
  && stringable (query req !! "maxEmployees") = true ->
  key = "minEmployees" \/ key = "maxEmployees" ->
  exists str,
    propToString (query req !! key) = Some str
    /\ field key (passedFilters (snd (companies_list req w)))
       = parseIntString str.
Proof.
  intros Hs Hk. destruct (companies_filters req w Hs)
    as (smin & smax & Hmin & Hmax & Hcalls).
  unfold passedFilters. rewrite Hcalls, last_snoc.
  destruct Hk as [-> | ->]; [exists smin|exists smax]; split;
    first [assumption | reflexivity].
Qed.

Lemma jobs_field (req : Request) (w : World DB) :
  stringable (query req !! "minSalary") = true ->
  exists str,
    propToString (query req !! "minSalary") = Some str
    /\ field "minSalary" (passedFilters (snd (jobs_list req w)))
       = if propTruthy (query req !! "minSalary")
         then parseIntString str else JUndefined.
Proof.
  intros Hs. destruct (jobs_filters req w Hs) as (s & Hps & Hcalls).
  unfold passedFilters. rewrite Hcalls, last_snoc.
  exists s. split; [exact Hps|reflexivity].
Qed.

Lemma jobs_hasEquity_field (req : Request) (w : World DB) :
  stringable (query req !! "minSalary") = true ->
  field "hasEquity" (passedFilters (snd (jobs_list req w)))
    = JBool (propIsTrue (query req !! "hasEquity")).
Proof.
  intros Hs. destruct (jobs_filters req w Hs) as (s & Hps & Hcalls).
  unfold passedFilters. rewrite Hcalls, last_snoc. reflexivity.
Qed.

Lemma append_truthy (a b : string) :
  negb (String.eqb b EmptyString) = true ->
  propTruthy (Some (QStr (a +:+ b))) = true.
Proof. destruct a; [intros Hb; exact Hb|reflexivity]. Qed.

Lemma numeral_rest_truthy (s rest : string) :
  isNumeral s = true -> negb (String.eqb (s +:+ rest) EmptyString) = true.
Proof.
  unfold isNumeral. intros Hs. apply andb_prop in Hs as [Hne _].
  destruct s; [discriminate Hne|reflexivity].
Qed.

(** X10: unless [parseInt] raises, GET /companies passes Numbers for
    [minEmployees] and [maxEmployees] (NaN, an infinity, the negative zero
    or a finite Number), never undefined, and a filter the query does not
    supply is passed as NaN; when [parseInt] raises (a filter that is, or
    as an array holds, an object with its own [toString]) the condition
    goes to the error responder and [Company.findAll] is not called. *)
Theorem companies_list_passes_numbers (req : Request) (w : World DB) :
  let cf := passedFilters (snd (companies_list req w)) in
  (stringable (query req !! "minEmployees")
   && stringable (query req !! "maxEmployees") = true ->
   isNumber (field "minEmployees" cf) = true
   /\ isNumber (field "maxEmployees" cf) = true
   /\ (query req !! "minEmployees" = None -> field "minEmployees" cf = JNaN)
   /\ (query req !! "maxEmployees" = None -> field "maxEmployees" cf = JNaN))
  /\ (stringable (query req !! "minEmployees")
      && stringable (query req !! "maxEmployees") = false ->
      companies_list req w = (errorResponder cannotConvert, w)).
Proof.
  cbv zeta. split; [|apply companies_list_raises].
  intros Hs.
  destruct (companies_field req w "minEmployees" Hs (or_introl eq_refl))
    as (smin & Hmin & ->).
  destruct (companies_field req w "maxEmployees" Hs (or_intror eq_refl))
    as (smax & Hmax & ->).
  split; [apply parseIntString_isNumber|].
  split; [apply parseIntString_isNumber|]. split.
  - intros Hq. rewrite Hq in Hmin. injection Hmin as <-. reflexivity.
  - intros Hq. rewrite Hq in Hmax. injection Hmax as <-. reflexivity.
Qed.

(** X11: unless [parseInt] raises, GET /jobs passes [minSalary] as
    undefined exactly when the query does not supply it or supplies the
    empty string, and as a Number for every other value; when [parseInt]
    raises (a [minSalary] that is, or as an array holds, an object with
    its own [toString]) the condition goes to the error responder and
    [Job.findAll] is not called. *)
Theorem jobs_list_minSalary_undefined_iff (req : Request) (w : World DB) :
  let passed := field "minSalary" (passedFilters (snd (jobs_list req w))) in
  (stringable (query req !! "minSalary") = true ->
   (passed = JUndefined
    <-> (query req !! "minSalary" = None
         \/ query req !! "minSalary" = Some (QStr EmptyString)))
   /\ (passed = JUndefined \/ isNumber passed = true))
  /\ (stringable (query req !! "minSalary") = false ->
      jobs_list req w = (errorResponder cannotConvert, w)).
Proof.
  cbv zeta. split; [|apply jobs_list_raises].
  intros Hs. destruct (jobs_field req w Hs) as (str & Hstr & ->).
  destruct (propTruthy (query req !! "minSalary")) eqn:Ht.
  - split; [|right; apply parseIntString_isNumber]. split.
    + intros Hp. pose proof (parseIntString_isNumber str) as Hn.
      rewrite Hp in Hn. discriminate Hn.
    + intros [Hq|Hq]; rewrite Hq in Ht; discriminate Ht.
  - split; [|left; reflexivity]. split; [|reflexivity]. intros _.
    destruct (query req !! "minSalary") as [[s|l|fs]|]; simpl in Ht;
      try discriminate Ht; [|left; reflexivity].
    destruct s; [right; reflexivity|discriminate Ht].
Qed.

(** X12: unless [parseInt] raises on [minSalary], GET /jobs passes
    [hasEquity: true] exactly when the query value is the string [true],
    in that spelling; every other value, and no value, is passed as
    [false]. *)
Theorem jobs_list_hasEquity_true_iff (req : Request) (w : World DB) :
  let jf := passedFilters (snd (jobs_list req w)) in
  stringable (query req !! "minSalary") = true ->
  (field "hasEquity" jf = JBool true
   <-> query req !! "hasEquity" = Some (QStr "true"))
  /\ (field "hasEquity" jf = JBool true \/ field "hasEquity" jf = JBool false).
Proof.
  cbv zeta. intros Hs. rewrite (jobs_hasEquity_field req w Hs). split.
  - destruct (query req !! "hasEquity") as [[s|l|fs]|]; simpl;
      try (split; intros Hp; discriminate Hp).
    split.
    + intros Hp. injection Hp as Hp. apply String.eqb_eq in Hp. subst s.
      reflexivity.
    + intros Hp. injection Hp as ->. reflexivity.
  - destruct (propIsTrue (query req !! "hasEquity")); auto.
Qed.

Lemma first_of_array (s str : string) (more : list QueryVal) :
  isNumeral s = true ->
  queryToString (QArr (QStr s :: more)) = Some str ->
  parseIntString str = toNumber (numeralValue s).
Proof.
  intros Hs. simpl.
  destruct ((fix each (l : list QueryVal) : option (list string) :=
               match l with
               | [] => Some []
               | x :: rest =>
                   match queryToString x, each rest with
                   | Some s0, Some ss => Some (s0 :: ss)
                   | _, _ => None
                   end
               end) more) as [ss|]; [|discriminate].
  simpl. intros Hstr. injection Hstr as <-. destruct ss as [|t ts].
  - apply parseIntString_numeral, Hs.
  - apply (parse_leading_numeral EmptyString s); trivial.
    apply andb_false_r.
Qed.

(** X13: a filter the query supplies more than once arrives as an array,
    and [parseInt] reads its first element: unless [parseInt] raises,
    [minEmployees], [maxEmployees] and [minSalary] given as an array whose
    first element is a decimal numeral are passed as the Number value of
    the integer that numeral writes, the integer itself up to [2 ^ 53]. *)
Theorem list_filters_read_first_of_repeated
    (req : Request) (w : World DB) (key s : string) (more : list QueryVal) :
  isNumeral s = true ->
  query req !! key = Some (QArr (QStr s :: more)) ->
  (key = "minEmployees" \/ key = "maxEmployees" ->
   stringable (query req !! "minEmployees")
   && stringable (query req !! "maxEmployees") = true ->
   isNumberOf (numeralValue s)
     (field key (passedFilters (snd (companies_list req w)))))
  /\ (key = "minSalary" ->
      stringable (query req !! "minSalary") = true ->
      isNumberOf (numeralValue s)
        (field key (passedFilters (snd (jobs_list req w))))).
Proof.
  intros Hs Hq. split.
  - intros Hk Hst. destruct (companies_field req w key Hst Hk)
      as (str & Hstr & ->).
    rewrite Hq in Hstr. rewrite (first_of_array _ _ _ Hs Hstr).
    apply toNumber_isNumberOf.
  - intros -> Hst. destruct (jobs_field req w Hst) as (str & Hstr & ->).
    rewrite Hq in Hstr. rewrite Hq. simpl propTruthy. cbv iota.
    rewrite (first_of_array _ _ _ Hs Hstr). apply toNumber_isNumberOf.
Qed.

(** X14: the numeric filters of the list routes are read by [parseInt]
    with no check of the whole value: unless [parseInt] raises on the
    other filter, a [minEmployees], [maxEmployees] or [minSalary] made of
    white space, a decimal numeral and a rest that does not begin with a
    digit (nor, after the numeral [0], with [x] or [X]) is passed as the
    Number value of the integer the numeral writes, the integer itself up
    to [2 ^ 53]; the white space and the rest are ignored. *)
Theorem list_filters_read_leading_numeral
    (req : Request) (w : World DB) (key ws s rest : string) :
  allWhiteSpace ws = true ->
  isNumeral s = true ->
  startsWith isDecimalDigit rest = false ->
  String.eqb s "0" && startsWith isLetterX rest = false ->
  query req !! key = Some (QStr (ws +:+ s +:+ rest)) ->
  (key = "minEmployees" \/ key = "maxEmployees" ->
   stringable (query req !! "minEmployees")
   && stringable (query req !! "maxEmployees") = true ->
   isNumberOf (numeralValue s)
     (field key (passedFilters (snd (companies_list req w)))))
  /\ (key = "minSalary" ->
      isNumberOf (numeralValue s)
        (field key (passedFilters (snd (jobs_list req w))))).
Proof.
  intros Hw Hs Hr Hx Hq. split.
  - intros Hk Hst. destruct (companies_field req w key Hst Hk)
      as (str & Hstr & ->).
    rewrite Hq in Hstr. injection Hstr as <-.
    rewrite (parse_leading_numeral ws s rest Hw Hs Hr Hx).
    apply toNumber_isNumberOf.
  - intros ->.
    assert (Hst : stringable (query req !! "minSalary") = true)
      by (unfold stringable; rewrite Hq; reflexivity).
    destruct (jobs_field req w Hst) as (str & Hstr & ->).
    rewrite Hq in Hstr. injection Hstr as <-. rewrite Hq.
    rewrite (append_truthy ws _ (numeral_rest_truthy s rest Hs)).
    rewrite (parse_leading_numeral ws s rest Hw Hs Hr Hx).
    apply toNumber_isNumberOf.
Qed.

(** X15: the list routes put no lower bound on a numeric filter: unless
    [parseInt] raises on the other filter, a value made of white space,
    [-], a decimal numeral and a rest that does not continue it is passed
    as the negative zero when the numeral writes 0, and otherwise as the
    Number value of the negative integer, the integer itself down to
    [- 2 ^ 53]. *)
Theorem list_filters_read_negative
    (req : Request) (w : World DB) (key ws s rest : string) :
  allWhiteSpace ws = true ->
  isNumeral s = true ->
  startsWith isDecimalDigit rest = false ->
  String.eqb s "0" && startsWith isLetterX rest = false ->
  query req !! key = Some (QStr (ws +:+ String "-" (s +:+ rest))) ->
  let passes v :=
    if numeralValue s =? 0 then v = JNegZero
    else isNumberOf (- numeralValue s) v in
  (key = "minEmployees" \/ key = "maxEmployees" ->
   stringable (query req !! "minEmployees")
   && stringable (query req !! "maxEmployees") = true ->
   passes (field key (passedFilters (snd (companies_list req w)))))
  /\ (key = "minSalary" ->
      passes (field key (passedFilters (snd (jobs_list req w))))).
Proof.
  intros Hw Hs Hr Hx Hq. cbv zeta.
  pose proof (parse_negative_numeral ws s rest Hw Hs Hr Hx) as Hp.
  split.
  - intros Hk Hst. destruct (companies_field req w key Hst Hk)
      as (str & Hstr & ->).
    rewrite Hq in Hstr. injection Hstr as <-. rewrite Hp.
    destruct (numeralValue s =? 0); [reflexivity|apply toNumber_isNumberOf].
  - intros ->.
    assert (Hst : stringable (query req !! "minSalary") = true)
      by (unfold stringable; rewrite Hq; reflexivity).
    destruct (jobs_field req w Hst) as (str & Hstr & ->).
    rewrite Hq in Hstr. injection Hstr as <-. rewrite Hq.
    rewrite (append_truthy ws (String "-" (s +:+ rest)) eq_refl), Hp.
    destruct (numeralValue s =? 0); [reflexivity|apply toNumber_isNumberOf].
Qed.

(** X16: [parseInt] is called with no radix, so a numeric filter that
    begins with [0x] or [0X] is read in radix 16: unless [parseInt] raises
    on the other filter, white space, the prefix, hexadecimal digits and a
    rest that does not continue them are passed as the Number value of the
    integer the hexadecimal digits write, the integer itself up to
    [2 ^ 53]. *)
Theorem list_filters_read_hexadecimal
    (req : Request) (w : World DB) (key ws h rest : string) (x : ascii) :
  allWhiteSpace ws = true ->
  isLetterX x = true ->
  isHexNumeral h = true ->
  startsWith isHexDigit rest = false ->
  query req !! key = Some (QStr (ws +:+ String "0" (String x (h +:+ rest)))) ->
  (key = "minEmployees" \/ key = "maxEmployees" ->
   stringable (query req !! "minEmployees")
   && stringable (query req !! "maxEmployees") = true ->
   isNumberOf (hexValue h)
     (field key (passedFilters (snd (companies_list req w)))))
  /\ (key = "minSalary" ->
      isNumberOf (hexValue h)
        (field key (passedFilters (snd (jobs_list req w))))).
Proof.
  intros Hw Hx Hh Hr Hq.
  pose proof (parse_hexadecimal ws h rest x Hw Hx Hh Hr) as Hp.
  split.
  - intros Hk Hst. destruct (companies_field req w key Hst Hk)
      as (str & Hstr & ->).
    rewrite Hq in Hstr. injection Hstr as <-. rewrite Hp.
    apply toNumber_isNumberOf.
  - intros ->.
    assert (Hst : stringable (query req !! "minSalary") = true)
      by (unfold stringable; rewrite Hq; reflexivity).
    destruct (jobs_field req w Hst) as (str & Hstr & ->).
    rewrite Hq in Hstr. injection Hstr as <-. rewrite Hq.
    rewrite (append_truthy ws (String "0" (String x (h +:+ rest))) eq_refl), Hp.
    apply toNumber_isNumberOf.
Qed.

(** X17: a numeric filter with no numeral to read is passed as NaN, not
    rejected: unless [parseInt] raises on the other filter, a value that,
    after its white space, begins with neither a sign nor a decimal digit,
    for [minEmployees] and [maxEmployees] (the empty value included) and
    for a non-empty [minSalary]. *)
Theorem list_filters_pass_NaN
    (req : Request) (w : World DB) (key ws s : string) :
  allWhiteSpace ws = true ->
  startsWith (fun c => isStrWhiteSpaceChar c || isSign c || isDecimalDigit c) s
    = false ->
  query req !! key = Some (QStr (ws +:+ s)) ->
  (key = "minEmployees" \/ key = "maxEmployees" ->
   stringable (query req !! "minEmployees")
   && stringable (query req !! "maxEmployees") = true ->
   field key (passedFilters (snd (companies_list req w))) = JNaN)
  /\ (key = "minSalary" ->
      negb (String.eqb (ws +:+ s) EmptyString) = true ->
      field key (passedFilters (snd (jobs_list req w))) = JNaN).
Proof.
  intros Hw Hs Hq. pose proof (parse_without_numeral ws s Hw Hs) as Hp.
  split.
  - intros Hk Hst. destruct (companies_field req w key Hst Hk)
      as (str & Hstr & ->).
    rewrite Hq in Hstr. injection Hstr as <-. exact Hp.
  - intros -> Hne.
    assert (Hst : stringable (query req !! "minSalary") = true)
      by (unfold stringable; rewrite Hq; reflexivity).
    destruct (jobs_field req w Hst) as (str & Hstr & ->).
    rewrite Hq in Hstr. injection Hstr as <-. rewrite Hq. simpl propTruthy.
    rewrite Hne. exact Hp.
Qed.

End ListRoutes.

(** ** The further properties on the sample deployment *)

Lemma raised_condition_forwarded_witness :
  calls (snd (companies_delete reqAdminMissing sampleWorld))
    = calls sampleWorld ++ [Company_remove (JStr "nope")]
  /\ fst (dao (Company_remove (JStr "nope")) (db sampleWorld))
       = Throws (NotFoundError "No company: nope")
  /\ fst (companies_delete reqAdminMissing sampleWorld)
       = errorResponder (NotFoundError "No company: nope").
Proof.
  split; [reflexivity|]. split; [reflexivity|].
  exact (Forall_lookup_1 _ _ 9%nat _
           (raised_condition_forwarded reqAdminMissing sampleWorld
              (Company_remove (JStr "nope"))
              (NotFoundError "No company: nope"))
           eq_refl eq_refl eq_refl).
Defined.

Lemma admin_existing : byAdmin reqAdminEmptyBody.
Proof. exists principalAdmin. split; reflexivity. Qed.

Lemma admin_existing_self_or_admin : bySelfOrAdmin reqAdminEmptyBody.
Proof. exists principalAdmin. split; reflexivity. Qed.

Lemma delete_answers_deleted_key_witness :
  byAdmin reqAdminEmptyBody /\ bySelfOrAdmin reqAdminEmptyBody
  /\ fst (companies_delete reqAdminEmptyBody sampleWorld)
       = {| statusCode := 200; json := JObj [("deleted", JStr "ibm")] |}
  /\ fst (jobs_delete reqAdminEmptyBody sampleWorld)
       = {| statusCode := 200; json := JObj [("deleted", JStr "1")] |}
  /\ fst (users_delete reqAdminEmptyBody sampleWorld)
       = {| statusCode := 200; json := JObj [("deleted", JStr "u1")] |}.
Proof.
  split; [exact admin_existing|]. split; [exact admin_existing_self_or_admin|].
  split; [|split].
  - destruct (dao (Company_remove (param reqAdminEmptyBody "handle"))
                (db sampleWorld)) as [[v|e] d'] eqn:Hd; [|discriminate Hd].
    rewrite (proj1 (delete_answers_deleted_key reqAdminEmptyBody sampleWorld)
               admin_existing v d' Hd). reflexivity.
  - destruct (dao (Job_remove (param reqAdminEmptyBody "id"))
                (db sampleWorld)) as [[v|e] d'] eqn:Hd; [|discriminate Hd].
    rewrite (proj1 (proj2 (delete_answers_deleted_key reqAdminEmptyBody
                             sampleWorld)) admin_existing v d' Hd).
    reflexivity.
  - destruct (dao (User_remove (param reqAdminEmptyBody "username"))
                (db sampleWorld)) as [[v|e] d'] eqn:Hd; [|discriminate Hd].
    rewrite (proj2 (proj2 (delete_answers_deleted_key reqAdminEmptyBody
                             sampleWorld))
               admin_existing_self_or_admin v d' Hd).
    reflexivity.
Defined.

Lemma create_answers_created_witness :
  byAdmin reqAdminNewCompany /\ byAdmin reqAdminPostJob
  /\ valid (validate (body reqAdminNewCompany) companyNewSchema) = true
  /\ valid (validate (body reqAdminPostJob) jobNewSchema) = true
  /\ fst (companies_post reqAdminNewCompany sampleWorld)
       = {| statusCode := 201; json := JObj [("company", newCompanyBody)] |}
  /\ fst (jobs_post reqAdminPostJob sampleWorld)
       = {| statusCode := 201; json := JObj [("job", engineerJob 2)] |}.
Proof.
  assert (Hc : byAdmin reqAdminNewCompany)
    by (exists principalAdmin; split; reflexivity).
  assert (Hj : byAdmin reqAdminPostJob)
    by (exists principalAdmin; split; reflexivity).
  split; [exact Hc|]. split; [exact Hj|]. do 2 (split; [reflexivity|]).
  split.
  - destruct (dao (Company_create (body reqAdminNewCompany)) (db sampleWorld))
      as [[row|e] d'] eqn:Hd; [|discriminate Hd].
    rewrite (proj1 (create_answers_created (H:=sampleApp) reqAdminNewCompany sampleWorld Hc)
               (eq_refl true) row d' Hd).
    injection Hd as <- _. reflexivity.
  - destruct (dao (Job_create (body reqAdminPostJob)) (db sampleWorld))
      as [[row|e] d'] eqn:Hd; [|discriminate Hd].
    rewrite (proj2 (create_answers_created (H:=sampleApp) reqAdminPostJob sampleWorld Hj)
               (eq_refl true) row d' Hd).
    injection Hd as <- _. reflexivity.
Defined.

Lemma update_answers_updated_witness :
  byAdmin reqAdminEmptyBody /\ bySelfOrAdmin reqAdminEmptyBody
  /\ valid (validate (body reqAdminEmptyBody) companyUpdateSchema) = true
  /\ valid (validate (body reqAdminEmptyBody) jobUpdateSchema) = true
  /\ valid (validate (body reqAdminEmptyBody) userUpdateSchema) = true
  /\ fst (companies_patch reqAdminEmptyBody sampleWorld)
       = {| statusCode := 200; json := JObj [("company", companyIbm)] |}
  /\ fst (jobs_patch reqAdminEmptyBody sampleWorld)
       = {| statusCode := 200; json := JObj [("job", jobAnalyst)] |}
  /\ fst (users_patch reqAdminEmptyBody sampleWorld)
       = {| statusCode := 200; json := JObj [("user", userU1)] |}.
Proof.
  split; [exact admin_existing|]. split; [exact admin_existing_self_or_admin|].
  do 3 (split; [reflexivity|]).
  split; [|split].
  - destruct (dao (Company_update (param reqAdminEmptyBody "handle")
                     (body reqAdminEmptyBody)) (db sampleWorld))
      as [[row|e] d'] eqn:Hd; [|discriminate Hd].
    rewrite (proj1 (update_answers_updated (H:=sampleApp) reqAdminEmptyBody sampleWorld)
               admin_existing (eq_refl true) row d' Hd).
    injection Hd as <- _. reflexivity.
  - destruct (dao (Job_update (param reqAdminEmptyBody "id")
                     (body reqAdminEmptyBody)) (db sampleWorld))
      as [[row|e] d'] eqn:Hd; [|discriminate Hd].
    rewrite (proj1 (proj2 (update_answers_updated (H:=sampleApp) reqAdminEmptyBody
                             sampleWorld))
               admin_existing (eq_refl true) row d' Hd).
    injection Hd as <- _. reflexivity.
  - destruct (dao (User_update (param reqAdminEmptyBody "username")
                     (body reqAdminEmptyBody)) (db sampleWorld))
      as [[row|e] d'] eqn:Hd; [|discriminate Hd].
    rewrite (proj2 (proj2 (update_answers_updated (H:=sampleApp) reqAdminEmptyBody
                             sampleWorld))
               admin_existing_self_or_admin (eq_refl true) row d' Hd).
    injection Hd as <- _. reflexivity.
Defined.

Lemma anonymous_user_routes_rejected_witness :
  user reqAnonymous = None
  /\ users_get reqAnonymous sampleWorld
       = (errorResponder UnauthorizedError, sampleWorld)
  /\ users_patch reqAnonymous sampleWorld
       = (errorResponder UnauthorizedError, sampleWorld)
  /\ users_delete reqAnonymous sampleWorld
       = (errorResponder UnauthorizedError, sampleWorld).
Proof.
  split; [reflexivity|].
  exact (anonymous_user_routes_rejected reqAnonymous sampleWorld eq_refl).
Defined.

Lemma lax_nope_nothing :
  @returnsNothing MemDb laxApp
    (Company_get (param reqAdminMissing "handle")) sampleDb.
Proof. exists JUndefined, sampleDb. split; reflexivity. Qed.

Lemma public_get_no_row_witness :
  params reqAdminMissing !! "handle" = Some "nope"
  /\ @returnsNothing MemDb laxApp
       (Company_get (param reqAdminMissing "handle")) sampleDb
  /\ fst (@dao MemDb laxApp (Job_get (param reqAdminMissing "id")) sampleDb)
       = Returns JUndefined
  /\ statusCode (fst (@companies_get MemDb laxApp reqAdminMissing sampleWorld))
       = 404
  /\ fst (@jobs_get MemDb laxApp reqAdminMissing sampleWorld)
       = {| statusCode := 200; json := JObj [("job", JUndefined)] |}.
Proof.
  split; [reflexivity|]. split; [exact lax_nope_nothing|].
  split; [reflexivity|].
  destruct (@public_get_no_row MemDb laxApp reqAdminMissing sampleWorld)
    as [C J].
  split.
  - rewrite (C "nope" eq_refl lax_nope_nothing). reflexivity.
  - exact (J JUndefined sampleDb eq_refl).
Defined.

Lemma users_routes_fail_as_shipped_witness :
  byAdmin reqAdminEmptyBody /\ bySelfOrAdmin reqAdminEmptyBody
  /\ valid (validate (body reqAdminEmptyBody) userUpdateSchema) = true
  /\ statusCode
       (fst (@users_list MemDb (shipped sampleApp) reqAdminEmptyBody sampleWorld))
       = 500
  /\ statusCode
       (fst (@users_patch MemDb (shipped sampleApp) reqAdminEmptyBody sampleWorld))
       = 500
  /\ statusCode
       (fst (@users_delete MemDb (shipped sampleApp) reqAdminEmptyBody sampleWorld))
       = 500.
Proof.
  split; [exact admin_existing|]. split; [exact admin_existing_self_or_admin|].
  split; [reflexivity|].
  destruct (users_routes_fail_as_shipped (H:=sampleApp) reqAdminEmptyBody
              sampleWorld) as (L & P & D).
  split; [exact (proj1 (L admin_existing))|].
  split; [exact (proj1 (P admin_existing_self_or_admin (eq_refl true)))
         |exact (proj1 (D admin_existing_self_or_admin))].
Defined.

Lemma public_get_by_key_answers_witness :
  (raisesNotFound (Company_get (param reqAdminMissing "handle")) sampleDb
   /\ raisesNotFound (Job_get (param reqAdminMissing "id")) sampleDb
   /\ statusCode (fst (companies_get reqAdminMissing sampleWorld)) = 404
   /\ statusCode (fst (jobs_get reqAdminMissing sampleWorld)) = 404)
  /\ (returnsEntity (Company_get (param reqSelf "handle")) sampleDb
        companyIbmWithJobs
      /\ returnsEntity (Job_get (param reqSelf "id")) sampleDb jobAnalyst
      /\ fst (companies_get reqSelf sampleWorld)
           = {| statusCode := 200;
                json := JObj [("company", companyIbmWithJobs)] |}
      /\ fst (jobs_get reqSelf sampleWorld)
           = {| statusCode := 200; json := JObj [("job", jobAnalyst)] |}).
Proof.
  assert (Hc : raisesNotFound (Company_get (param reqAdminMissing "handle")) sampleDb)
    by (exists "No company: nope", sampleDb; reflexivity).
  assert (Hj : raisesNotFound (Job_get (param reqAdminMissing "id")) sampleDb)
    by (exists "No job", sampleDb; reflexivity).
  assert (Hc' : returnsEntity (Company_get (param reqSelf "handle")) sampleDb
                  companyIbmWithJobs)
    by (split; [reflexivity|exists sampleDb; reflexivity]).
  assert (Hj' : returnsEntity (Job_get (param reqSelf "id")) sampleDb jobAnalyst)
    by (split; [reflexivity|exists sampleDb; reflexivity]).
  destruct (public_get_by_key_answers reqAdminMissing sampleWorld)
    as (C404 & _ & J404 & _).
  destruct (public_get_by_key_answers reqSelf sampleWorld)
    as (_ & C200 & _ & J200).
  split.
  - split; [exact Hc|]. split; [exact Hj|].
    split; [exact (C404 Hc)|exact (J404 Hj)].
  - split; [exact Hc'|]. split; [exact Hj'|].
    split; [exact (C200 _ Hc')|exact (J200 _ Hj')].
Defined.

Lemma companies_list_passes_numbers_witness :
  (stringable (query reqListPlain !! "minEmployees")
   && stringable (query reqListPlain !! "maxEmployees") = true
   /\ query reqListPlain !! "minEmployees" = None
   /\ query reqListPlain !! "maxEmployees" = None
   /\ field "minEmployees"
        (passedFilters (snd (companies_list reqListPlain sampleWorld))) = JNaN
   /\ field "maxEmployees"
        (passedFilters (snd (companies_list reqListPlain sampleWorld))) = JNaN)
  /\ (stringable (query reqListOwnToString !! "minEmployees")
      && stringable (query reqListOwnToString !! "maxEmployees") = false
      /\ companies_list reqListOwnToString sampleWorld
           = (errorResponder cannotConvert, sampleWorld)).
Proof.
  destruct (companies_list_passes_numbers reqListPlain sampleWorld)
    as [Hok _].
  destruct (Hok eq_refl) as (_ & _ & Hmin & Hmax).
  split.
  - do 3 (split; [reflexivity|]).
    split; [exact (Hmin eq_refl)|exact (Hmax eq_refl)].
  - split; [reflexivity|].
    exact (proj2 (companies_list_passes_numbers reqListOwnToString sampleWorld)
             eq_refl).
Defined.

Lemma jobs_list_minSalary_undefined_iff_witness :
  (stringable (query reqListGarbage !! "minSalary") = true
   /\ query reqListGarbage !! "minSalary" = Some (QStr EmptyString)
   /\ field "minSalary"
        (passedFilters (snd (jobs_list reqListGarbage sampleWorld)))
        = JUndefined)
  /\ (stringable (query reqListOwnToString !! "minSalary") = false
      /\ jobs_list reqListOwnToString sampleWorld
           = (errorResponder cannotConvert, sampleWorld)).
Proof.
  split.
  - do 2 (split; [reflexivity|]).
    exact (proj2 (proj1 (proj1 (jobs_list_minSalary_undefined_iff
                                  reqListGarbage sampleWorld) eq_refl))
             (or_intror eq_refl)).
  - split; [reflexivity|].
    exact (proj2 (jobs_list_minSalary_undefined_iff reqListOwnToString
                    sampleWorld) eq_refl).
Defined.

Lemma jobs_list_hasEquity_true_iff_witness :
  stringable (query reqListFiltered !! "minSalary") = true
  /\ stringable (query reqListGarbage !! "minSalary") = true
  /\ query reqListFiltered !! "hasEquity" = Some (QStr "true")
  /\ query reqListGarbage !! "hasEquity" = Some (QStr "True")
  /\ field "hasEquity"
       (passedFilters (snd (jobs_list reqListFiltered sampleWorld)))
       = JBool true
  /\ field "hasEquity"
       (passedFilters (snd (jobs_list reqListGarbage sampleWorld)))
       = JBool false.
Proof.
  do 4 (split; [reflexivity|]).
  split.
  - exact (proj2 (proj1 (jobs_list_hasEquity_true_iff reqListFiltered
                           sampleWorld eq_refl)) eq_refl).
  - destruct (jobs_list_hasEquity_true_iff reqListGarbage sampleWorld eq_refl)
      as [[Hif _] [Ht|Hf]]; [|exact Hf].
    discriminate (Hif Ht).
Defined.

Lemma list_filters_read_first_of_repeated_witness :
  isNumeral "7" = true /\ isNumeral "5" = true
  /\ query reqListRepeated !! "minEmployees"
       = Some (QArr [QStr "7"; QStr "9"])
  /\ query reqListRepeated !! "minSalary" = Some (QArr [QStr "5"; QStr "6"])
  /\ stringable (query reqListRepeated !! "minEmployees")
     && stringable (query reqListRepeated !! "maxEmployees") = true
  /\ stringable (query reqListRepeated !! "minSalary") = true
  /\ field "minEmployees"
       (passedFilters (snd (companies_list reqListRepeated sampleWorld)))
       = JNum (inject_Z 7)
  /\ field "minSalary"
       (passedFilters (snd (jobs_list reqListRepeated sampleWorld)))
       = JNum (inject_Z 5).
Proof.
  do 6 (split; [reflexivity|]).
  split.
  - exact (proj2 (proj1 (list_filters_read_first_of_repeated reqListRepeated
                           sampleWorld "minEmployees" "7" [QStr "9"]
                           eq_refl eq_refl) (or_introl eq_refl) eq_refl)
             ltac:(vm_compute; discriminate)).
  - exact (proj2 (proj2 (list_filters_read_first_of_repeated reqListRepeated
                           sampleWorld "minSalary" "5" [QStr "6"]
                           eq_refl eq_refl) eq_refl eq_refl)
             ltac:(vm_compute; discriminate)).
Defined.

Lemma list_filters_read_leading_numeral_witness :
  allWhiteSpace " " = true /\ isNumeral "40" = true
  /\ startsWith isDecimalDigit " people" = false
  /\ String.eqb "40" "0" && startsWith isLetterX " people" = false
  /\ field "maxEmployees"
       (passedFilters
          (snd (companies_list (listReq [("maxEmployees", QStr " 40 people")])
                  sampleWorld)))
       = JNum (inject_Z 40)
  /\ field "minSalary"
       (passedFilters
          (snd (jobs_list (listReq [("minSalary", QStr " 40 people")])
                  sampleWorld)))
       = JNum (inject_Z 40).
Proof.
  do 4 (split; [reflexivity|]). split.
  - exact (proj2 (proj1 (list_filters_read_leading_numeral
                           (listReq [("maxEmployees", QStr " 40 people")])
                           sampleWorld "maxEmployees" " " "40" " people"
                           eq_refl eq_refl eq_refl eq_refl eq_refl)
                    (or_intror eq_refl) eq_refl)
             ltac:(vm_compute; discriminate)).
  - exact (proj2 (proj2 (list_filters_read_leading_numeral
                           (listReq [("minSalary", QStr " 40 people")])
                           sampleWorld "minSalary" " " "40" " people"
                           eq_refl eq_refl eq_refl eq_refl eq_refl) eq_refl)
             ltac:(vm_compute; discriminate)).
Defined.

Lemma list_filters_read_negative_witness :
  allWhiteSpace EmptyString = true /\ isNumeral "5" = true
  /\ startsWith isDecimalDigit EmptyString = false
  /\ String.eqb "5" "0" && startsWith isLetterX EmptyString = false
  /\ field "minEmployees"
       (passedFilters
          (snd (companies_list (listReq [("minEmployees", QStr "-5")])
                  sampleWorld)))
       = JNum (inject_Z (-5))
  /\ field "minSalary"
       (passedFilters
          (snd (jobs_list (listReq [("minSalary", QStr "-5")]) sampleWorld)))
       = JNum (inject_Z (-5)).
Proof.
  do 4 (split; [reflexivity|]). split.
  - exact (proj2 (proj1 (list_filters_read_negative
                           (listReq [("minEmployees", QStr "-5")]) sampleWorld
                           "minEmployees" EmptyString "5" EmptyString
                           eq_refl eq_refl eq_refl eq_refl eq_refl)
                    (or_introl eq_refl) eq_refl)
             ltac:(vm_compute; discriminate)).
  - exact (proj2 (proj2 (list_filters_read_negative
                           (listReq [("minSalary", QStr "-5")]) sampleWorld
                           "minSalary" EmptyString "5" EmptyString
                           eq_refl eq_refl eq_refl eq_refl eq_refl) eq_refl)
             ltac:(vm_compute; discriminate)).
Defined.

Lemma list_filters_read_hexadecimal_witness :
  allWhiteSpace EmptyString = true /\ isLetterX "x" = true
  /\ isHexNumeral "1F" = true
  /\ startsWith isHexDigit EmptyString = false
  /\ field "maxEmployees"
       (passedFilters
          (snd (companies_list (listReq [("maxEmployees", QStr "0x1F")])
                  sampleWorld)))
       = JNum (inject_Z 31)
  /\ field "minSalary"
       (passedFilters
          (snd (jobs_list (listReq [("minSalary", QStr "0x1F")]) sampleWorld)))
       = JNum (inject_Z 31).
Proof.
  do 4 (split; [reflexivity|]). split.
  - exact (proj2 (proj1 (list_filters_read_hexadecimal
                           (listReq [("maxEmployees", QStr "0x1F")]) sampleWorld
                           "maxEmployees" EmptyString "1F" EmptyString "x"
                           eq_refl eq_refl eq_refl eq_refl eq_refl)
                    (or_intror eq_refl) eq_refl)
             ltac:(vm_compute; discriminate)).
  - exact (proj2 (proj2 (list_filters_read_hexadecimal
                           (listReq [("minSalary", QStr "0x1F")]) sampleWorld
                           "minSalary" EmptyString "1F" EmptyString "x"
                           eq_refl eq_refl eq_refl eq_refl eq_refl) eq_refl)
             ltac:(vm_compute; discriminate)).
Defined.

Lemma list_filters_pass_NaN_witness :
  allWhiteSpace " " = true
  /\ startsWith (fun c => isStrWhiteSpaceChar c || isSign c || isDecimalDigit c)
       "many" = false
  /\ negb (String.eqb " many" EmptyString) = true
  /\ field "minEmployees"
       (passedFilters
          (snd (companies_list (listReq [("minEmployees", QStr " many")])
                  sampleWorld)))
       = JNaN
  /\ field "minSalary"
       (passedFilters
          (snd (jobs_list (listReq [("minSalary", QStr " many")])
                  sampleWorld)))
       = JNaN.
Proof.
  do 3 (split; [reflexivity|]). split.
  - exact (proj1 (list_filters_pass_NaN
                    (listReq [("minEmployees", QStr " many")]) sampleWorld
                    "minEmployees" " " "many" eq_refl eq_refl eq_refl)
             (or_introl eq_refl) eq_refl).
  - exact (proj2 (list_filters_pass_NaN
                    (listReq [("minSalary", QStr " many")]) sampleWorld
                    "minSalary" " " "many" eq_refl eq_refl eq_refl)
             eq_refl eq_refl).
Defined.
